(** * dlc-label-editor: the label editor and the MAT converter

    A shallow embedding of [src/editor.py] (class [Editor]) and
    [src/matconverter.py] (class [MatConverter]), and the properties of the
    editing session, the annotation table and the two exports.

    What is modelled from the two files:
    - the annotation table ([pandas.DataFrame] with three-level column
      keys and a [RangeIndex] of frames), its cells being IEEE binary64
      values (NaN is the "missing" sentinel);
    - the private fields of [Editor] as a record, the methods as
      computations in a state-and-exception monad;
    - the main loop of [Editor.run], driven by the stream of inputs that
      [cv2.waitKey(0)] delivers (mouse and trackbar callbacks, then a key);
    - the files written ([DataFrame.to_hdf], [scipy.io.savemat]) as a log.

    The video capture and the window (frame decoding, drawing, [imshow])
    are external collaborators: they read the editor's fields and never
    write them, so they do not appear in the state. *)

From Stdlib Require Import ZArith List String Ascii Bool Lia Sorted OrderedTypeEx.
From Stdlib Require Import Floats.SpecFloat.
From stdpp Require Import gmap strings list.
Import ListNotations.

Local Open Scope string_scope.
Local Open Scope Z_scope.

(* ===================================================================== *)
(** ** Python exceptions and results                                      *)
(* ===================================================================== *)

(** The exceptions the modelled code can raise. *)
Inductive exn : Type :=
| KeyError        (* a column key or a row label that is not in the table *)
| IndexError      (* [label_names[i]] or [keys()[0]] out of bounds *)
| ValueError      (* [int(round(nan))] *)
| OverflowError.  (* [int(round(inf))] *)

Inductive result (A : Type) : Type :=
| Ok (a : A)
| Raise (e : exn).
Arguments Ok {A} a.
Arguments Raise {A} e.

Definition is_ok {A} (r : result A) : bool :=
  match r with Ok _ => true | Raise _ => false end.

(* ===================================================================== *)
(** ** binary64 values                                                    *)
(* ===================================================================== *)

Module Float64.

(** A cell of the table is a numpy [float64]: Rocq's specification of
    IEEE 754 values, at precision 53 and maximal exponent 1024. *)
Definition t : Type := spec_float.

Definition nan : t := S754_nan.

(** [np.isnan] *)
Definition isnan (v : t) : bool :=
  match v with S754_nan => true | _ => false end.

(** Storing a Python [int] in a [float64] column converts it, rounding to
    nearest even (exact below 2^53, so for every pixel coordinate). *)
Definition of_int (z : Z) : t := binary_normalize 53 1024 z 0 false.

(** Nearest integer of [m / 2^k], ties to even ([m], [k] positive). *)
Definition rint_shift (m k : positive) : Z :=
  let d := Z.pow 2 (Zpos k) in
  let q := Z.div (Zpos m) d in
  let r := Z.modulo (Zpos m) d in
  match Z.compare (2 * r) d with
  | Lt => q
  | Gt => q + 1
  | Eq => if Z.even q then q else q + 1
  end.

(** [int(round(v))]: Python rounds half to even; NaN raises [ValueError]
    and an infinity raises [OverflowError]. *)
Definition int_round (v : t) : result Z :=
  match v with
  | S754_nan => Raise ValueError
  | S754_infinity _ => Raise OverflowError
  | S754_zero _ => Ok 0
  | S754_finite s m e =>
      let a := match e with
               | Z0 => Zpos m
               | Zpos k => Zpos m * Z.pow 2 (Zpos k)
               | Zneg k => rint_shift m k
               end in
      Ok (if s then - a else a)
  end.

End Float64.

(** The value [int(round(x_f)) if not np.isnan(..) else np.nan]: a Python
    [int] or [np.nan]. *)
Inductive coord : Type :=
| CNan
| CInt (z : Z).

(* ===================================================================== *)
(** ** The annotation table                                               *)
(* ===================================================================== *)

Module DataFrame.

(** A column key [(subject, label, channel)] of the MultiIndex. *)
Definition key : Type := string * string * string.

Definition key_eqb (a b : key) : bool :=
  let '(a0, a1, a2) := a in
  let '(b0, b1, b2) := b in
  String.eqb a0 b0 && String.eqb a1 b1 && String.eqb a2 b2.

(** The columns in file order, each a [Series] over the frames
    [0 .. N-1]. *)
Definition t : Type := list (key * list Float64.t).

(** [df.keys()] *)
Definition keys (df : t) : list key := map fst df.

(** [df[k]]: the column, or [KeyError]. *)
Fixpoint getitem (df : t) (k : key) : result (list Float64.t) :=
  match df with
  | [] => Raise KeyError
  | (k', col) :: rest => if key_eqb k' k then Ok col else getitem rest k
  end.

(** [series[frame]] on a [RangeIndex]: lookup by label, so a negative or
    too large [frame] is a [KeyError]. *)
Definition series_get (col : list Float64.t) (frame : Z) : result Float64.t :=
  if frame <? 0 then Raise KeyError
  else match col !! Z.to_nat frame with
       | Some v => Ok v
       | None => Raise KeyError
       end.

(** [series[frame] = v] for a frame of the index. For a frame outside the
    index pandas enlarges the temporary [Series] only: the table keeps
    its rows. *)
Definition series_set (col : list Float64.t) (frame : Z) (v : Float64.t)
  : list Float64.t :=
  if frame <? 0 then col else <[Z.to_nat frame := v]> col.

(** [df[k][frame] = v]: the column [df[k]] is a view of the table, so the
    write lands in the table; [KeyError] when there is no such column. *)
Fixpoint setitem (df : t) (k : key) (frame : Z) (v : Float64.t) : result t :=
  match df with
  | [] => Raise KeyError
  | (k', col) :: rest =>
      if key_eqb k' k then Ok ((k', series_set col frame v) :: rest)
      else match setitem rest k frame v with
           | Ok rest' => Ok ((k', col) :: rest')
           | Raise e => Raise e
           end
  end.

(** The value of a cell, when the column and the row exist. *)
Definition cell (df : t) (k : key) (frame : Z) : option Float64.t :=
  match getitem df k with
  | Ok col => if frame <? 0 then None else col !! Z.to_nat frame
  | Raise _ => None
  end.

End DataFrame.

(* ===================================================================== *)
(** ** Python strings, [os.path] (POSIX) and [np.unique]                  *)
(* ===================================================================== *)

Module Py.

Definition slash : ascii := "/"%char.
Definition dot : ascii := "."%char.

(** [s.startswith(p)] on character lists. *)
Fixpoint starts_with (p s : list ascii) : bool :=
  match p, s with
  | [], _ => true
  | _ :: _, [] => false
  | a :: p', b :: s' => Ascii.eqb a b && starts_with p' s'
  end.

(** The left-to-right scan of [s.split(sep)] for a non-empty [sep]:
    [skip] counts the characters of a separator just matched that are
    still to be dropped, [piece] is the current piece, reversed. *)
Fixpoint split_go (sep : list ascii) (skip : nat) (piece s : list ascii)
  : list (list ascii) :=
  match s with
  | [] => [rev piece]
  | c :: s' =>
      match skip with
      | S k => split_go sep k piece s'
      | O => if starts_with sep s
             then rev piece :: split_go sep (Nat.pred (length sep)) [] s'
             else split_go sep 0 (c :: piece) s'
      end
  end.

(** [s.split(sep)] *)
Definition split (sep s : list ascii) : list (list ascii) :=
  split_go sep 0 [] s.

(** [s.rsplit(sep)] without [maxsplit]: the separators are searched from
    the right, which is the left-to-right search on the mirrored text. *)
Definition rsplit (sep s : string) : list string :=
  rev (map (fun p => string_of_list_ascii (rev p))
           (split (rev (list_ascii_of_string sep))
                  (rev (list_ascii_of_string s)))).

(** [l[0]] *)
Definition first {A} (l : list A) : result A :=
  match l with
  | [] => Raise IndexError
  | x :: _ => Ok x
  end.

(** [s.rfind(c)], [-1] when [c] does not occur. *)
Fixpoint rfind (c : ascii) (s : string) : Z :=
  match s with
  | EmptyString => -1
  | String a s' =>
      let i := rfind c s' in
      if 0 <=? i then i + 1
      else if Ascii.eqb a c then 0 else -1
  end.

(** [s[i:]] and [s[:i]] for [0 <= i]. *)
Fixpoint drop (n : nat) (s : string) : string :=
  match n, s with
  | O, _ => s
  | S _, EmptyString => EmptyString
  | S n', String _ s' => drop n' s'
  end.

Fixpoint take (n : nat) (s : string) : string :=
  match n, s with
  | O, _ => EmptyString
  | S _, EmptyString => EmptyString
  | S n', String a s' => String a (take n' s')
  end.

(** [s == c * len(s)] *)
Fixpoint all_char (c : ascii) (s : string) : bool :=
  match s with
  | EmptyString => true
  | String a s' => Ascii.eqb a c && all_char c s'
  end.

(** [s.rstrip('/')] *)
Fixpoint rstrip_slash (s : string) : string :=
  match s with
  | EmptyString => EmptyString
  | String a s' => if all_char slash s then EmptyString
                   else String a (rstrip_slash s')
  end.

(** [s.split('/')] on a string. *)
Fixpoint split_slash (s : string) : list string :=
  match s with
  | EmptyString => [EmptyString]
  | String a s' =>
      if Ascii.eqb a slash then EmptyString :: split_slash s'
      else match split_slash s' with
           | h :: t => String a h :: t
           | [] => [String a EmptyString]
           end
  end.

(** ['/'.join(comps)] *)
Fixpoint join_slash (comps : list string) : string :=
  match comps with
  | [] => EmptyString
  | [c] => c
  | c :: rest => c ++ "/" ++ join_slash rest
  end.

(** The loop of [posixpath.normpath] over the components; [acc] is
    [new_comps], last component first. *)
Fixpoint norm_comps (initial_slashes : nat) (comps acc : list string)
  : list string :=
  match comps with
  | [] => rev acc
  | comp :: rest =>
      if String.eqb comp "" || String.eqb comp "." then
        norm_comps initial_slashes rest acc
      else if negb (String.eqb comp "..")
              || (Nat.eqb initial_slashes 0 && match acc with [] => true | _ => false end)
              || match acc with last :: _ => String.eqb last ".." | [] => false end
      then norm_comps initial_slashes rest (comp :: acc)
      else match acc with
           | _ :: acc' => norm_comps initial_slashes rest acc'
           | [] => norm_comps initial_slashes rest acc
           end
  end.

(** [os.path.normpath] *)
Definition normpath (path : string) : string :=
  if String.eqb path "" then "."
  else
    let initial_slashes :=
      if String.prefix "/" path then
        if String.prefix "//" path && negb (String.prefix "///" path)
        then 2%nat else 1%nat
      else 0%nat in
    let comps := norm_comps initial_slashes (split_slash path) [] in
    let joined := join_slash comps in
    let out := match initial_slashes with
               | O => joined
               | S O => "/" ++ joined
               | _ => "//" ++ joined
               end in
    if String.eqb out "" then "." else out.

(** [os.path.basename] *)
Definition basename (p : string) : string :=
  drop (Z.to_nat (rfind slash p + 1)) p.

(** [os.path.dirname] *)
Definition dirname (p : string) : string :=
  let head := take (Z.to_nat (rfind slash p + 1)) p in
  if negb (String.eqb head "") && negb (all_char slash head)
  then rstrip_slash head else head.

(** [os.path.splitext]: the extension starts at the last dot of the last
    component, unless only dots precede it there. *)
Definition splitext (p : string) : string * string :=
  let sepIndex := rfind slash p in
  let dotIndex := rfind dot p in
  if (sepIndex <? dotIndex)
     && negb (all_char dot (take (Z.to_nat (dotIndex - (sepIndex + 1)))
                                 (drop (Z.to_nat (sepIndex + 1)) p)))
  then (take (Z.to_nat dotIndex) p, drop (Z.to_nat dotIndex) p)
  else (p, EmptyString).

(** [os.path.join(a, b)] *)
Definition join (a b : string) : string :=
  if String.prefix "/" b then b
  else if String.eqb a "" || String.eqb (drop (Nat.pred (String.length a)) a) "/"
       then a ++ b
       else a ++ "/" ++ b.

(** Insertion into a sorted list without repeats. *)
Fixpoint insert_sorted (x : string) (l : list string) : list string :=
  match l with
  | [] => [x]
  | y :: l' =>
      match String.compare x y with
      | Lt => x :: l
      | Eq => l
      | Gt => y :: insert_sorted x l'
      end
  end.

(** [np.unique]: the sorted distinct values. *)
Definition unique (l : list string) : list string :=
  fold_right insert_sorted [] l.

(** [a[i]] on a numpy array: a negative index counts from the end. *)
Definition array_get {A} (a : list A) (i : Z) : result A :=
  let n := Z.of_nat (length a) in
  let j := if i <? 0 then i + n else i in
  if (j <? 0) || (n <=? j) then Raise IndexError
  else match a !! Z.to_nat j with
       | Some x => Ok x
       | None => Raise IndexError
       end.

End Py.

(* ===================================================================== *)
(** ** Files written by the process                                       *)
(* ===================================================================== *)

(** One entry of the dictionary handed to [scipy.io.savemat]. *)
Record mat_entry : Type := MatEntry {
  mat_x : list Float64.t;
  mat_y : list Float64.t;
  mat_likelihood : list Float64.t
}.

(** What a written file holds: the table ([to_hdf]) or the per-label
    dictionary ([savemat]). *)
Inductive file : Type :=
| H5File (df : DataFrame.t)
| MatFile (df_out : gmap string mat_entry).

(** The writes performed so far, the latest first. Each write replaces the
    file at its path ([mode='w']). *)
Definition write_log : Type := list (string * file).

Definition is_h5 (w : string * file) : bool :=
  match snd w with H5File _ => true | MatFile _ => false end.

Definition is_mat (w : string * file) : bool :=
  match snd w with H5File _ => false | MatFile _ => true end.

(* ===================================================================== *)
(** ** [editor.py]: class [Editor]                                        *)
(* ===================================================================== *)

Module Editor.

(** The fields of the object that the methods read or write
    ([__current_label] is [current_label], and so on), and the writes of
    the process. The marker style, the text position, the capture and
    the window name only feed the drawing calls. *)
Record t : Type := Build {
  label_file : string;
  video_file : string;
  current_label : Z;
  current_frame : Z;
  mx : Z;
  my : Z;
  mouse_pressed : bool;
  changes_made : bool;
  fixed_label_file : string;
  label_data : DataFrame.t;
  data_name : string;
  label_names : list string;
  frame_count : Z;
  files : write_log
}.

Definition set_current_label (v : Z) (s : t) : t :=
  Build (label_file s) (video_file s) v (current_frame s) (mx s) (my s)
        (mouse_pressed s) (changes_made s) (fixed_label_file s)
        (label_data s) (data_name s) (label_names s) (frame_count s) (files s).

Definition set_current_frame (v : Z) (s : t) : t :=
  Build (label_file s) (video_file s) (current_label s) v (mx s) (my s)
        (mouse_pressed s) (changes_made s) (fixed_label_file s)
        (label_data s) (data_name s) (label_names s) (frame_count s) (files s).

Definition set_mouse (x y : Z) (s : t) : t :=
  Build (label_file s) (video_file s) (current_label s) (current_frame s) x y
        (mouse_pressed s) (changes_made s) (fixed_label_file s)
        (label_data s) (data_name s) (label_names s) (frame_count s) (files s).

Definition set_mouse_pressed (b : bool) (s : t) : t :=
  Build (label_file s) (video_file s) (current_label s) (current_frame s)
        (mx s) (my s) b (changes_made s) (fixed_label_file s)
        (label_data s) (data_name s) (label_names s) (frame_count s) (files s).

Definition set_changes_made (b : bool) (s : t) : t :=
  Build (label_file s) (video_file s) (current_label s) (current_frame s)
        (mx s) (my s) (mouse_pressed s) b (fixed_label_file s)
        (label_data s) (data_name s) (label_names s) (frame_count s) (files s).

Definition set_label_data (df : DataFrame.t) (s : t) : t :=
  Build (label_file s) (video_file s) (current_label s) (current_frame s)
        (mx s) (my s) (mouse_pressed s) (changes_made s) (fixed_label_file s)
        df (data_name s) (label_names s) (frame_count s) (files s).

(** A file is written at [path]. *)
Definition write_file (path : string) (f : file) (s : t) : t :=
  Build (label_file s) (video_file s) (current_label s) (current_frame s)
        (mx s) (my s) (mouse_pressed s) (changes_made s) (fixed_label_file s)
        (label_data s) (data_name s) (label_names s) (frame_count s)
        ((path, f) :: files s).

(** *** Methods run in a state-and-exception monad: an exception leaves
    the fields as they were when it was raised. *)
Definition M (A : Type) : Type := t -> result A * t.

Definition ret {A} (a : A) : M A := fun s => (Ok a, s).

Definition bind {A B} (m : M A) (f : A -> M B) : M B :=
  fun s => match m s with
           | (Ok a, s') => f a s'
           | (Raise e, s') => (Raise e, s')
           end.

Definition lift {A} (r : result A) : M A := fun s => (r, s).

Definition self : M t := fun s => (Ok s, s).

Definition modify (f : t -> t) : M unit := fun s => (Ok tt, f s).

Declare Scope editor_scope.
Delimit Scope editor_scope with editor.
Notation "x <- m ;; k" := (bind m (fun x => k))
  (at level 100, m at next level, right associativity) : editor_scope.
Notation "m ;; k" := (bind m (fun _ => k))
  (at level 100, right associativity) : editor_scope.
Local Open Scope editor_scope.

(** *** [__init__] *)

(** Lines 43-47: the path of the corrected table. *)
Definition output_path (label_file : string) : result string :=
  match Py.first (Py.rsplit "_Fixed"
                    (fst (Py.splitext (Py.basename (Py.normpath label_file))))) with
  | Raise e => Raise e
  | Ok input_filename =>
      let folder := Py.dirname (Py.normpath label_file) in
      let output_filename := (input_filename ++ "_Fixed.h5")%string in
      Ok (Py.normpath (Py.join folder output_filename))
  end.

(** [table] is what [pd.read_hdf(label_file)] returns and [video_frames]
    what the capture reports as [CAP_PROP_FRAME_COUNT]. *)
Definition init (label_file video_file : string) (table : DataFrame.t)
           (video_frames : Z) : result t :=
  match output_path label_file with
  | Raise e => Raise e
  | Ok fixed =>
      match Py.first (DataFrame.keys table) with
      | Raise e => Raise e
      | Ok k0 =>
          Ok {| label_file := label_file;
                video_file := video_file;
                current_label := 0;
                current_frame := 0;
                mx := 0;
                my := 0;
                mouse_pressed := false;
                changes_made := false;
                fixed_label_file := fixed;
                label_data := table;
                data_name := fst (fst k0);
                label_names := Py.unique (map (fun k => snd (fst k)) (DataFrame.keys table));
                frame_count := video_frames - 1;
                files := [] |}
      end
  end.


(** *** The methods *)

(** [_draw_label]: shows the frame, with a marker unless a coordinate is
    NaN. The window is external; no field changes. *)
Definition draw_label (x y : coord) : M unit := ret tt.

(** [_get_label_xy] *)
Definition get_label_xy : M (coord * coord) :=
  s <- self ;;
  name <- lift (Py.array_get (label_names s) (current_label s)) ;;
  x_ser <- lift (DataFrame.getitem (label_data s) (data_name s, name, "x")) ;;
  x_f <- lift (DataFrame.series_get x_ser (current_frame s)) ;;
  name <- lift (Py.array_get (label_names s) (current_label s)) ;;
  y_ser <- lift (DataFrame.getitem (label_data s) (data_name s, name, "y")) ;;
  y_f <- lift (DataFrame.series_get y_ser (current_frame s)) ;;
  x_i <- (if negb (Float64.isnan x_f)
          then z <- lift (Float64.int_round x_f) ;; ret (CInt z)
          else ret CNan) ;;
  y_i <- (if negb (Float64.isnan x_f)
          then z <- lift (Float64.int_round y_f) ;; ret (CInt z)
          else ret CNan) ;;
  ret (x_i, y_i).

(** [_display_label] *)
Definition display_label (x y : coord) : M unit := draw_label x y.

(** [_save_label] *)
Definition save_label (x y : Z) : M unit :=
  s <- self ;;
  name <- lift (Py.array_get (label_names s) (current_label s)) ;;
  df <- lift (DataFrame.setitem (label_data s) (data_name s, name, "x")
                (current_frame s) (Float64.of_int x)) ;;
  modify (set_label_data df) ;;
  s <- self ;;
  name <- lift (Py.array_get (label_names s) (current_label s)) ;;
  df <- lift (DataFrame.setitem (label_data s) (data_name s, name, "y")
                (current_frame s) (Float64.of_int y)) ;;
  modify (set_label_data df) ;;
  s <- self ;;
  modify (write_file (fixed_label_file s) (H5File (label_data s))) ;;
  modify (set_changes_made true).

(** [_on_label_trackbar] *)
Definition on_label_trackbar (val : Z) : M unit :=
  modify (set_current_label val) ;;
  xy <- get_label_xy ;;
  draw_label (fst xy) (snd xy).

(** [_on_frame_trackbar] *)
Definition on_frame_trackbar (val : Z) : M unit :=
  modify (set_current_frame val) ;;
  xy <- get_label_xy ;;
  draw_label (fst xy) (snd xy).

(** The mouse event codes of OpenCV. *)
Definition EVENT_MOUSEMOVE : Z := 0.
Definition EVENT_LBUTTONDOWN : Z := 1.
Definition EVENT_LBUTTONUP : Z := 4.

(** [_edit_label] *)
Definition edit_label (event ex ey : Z) : M unit :=
  if event =? EVENT_LBUTTONDOWN then
    modify (set_mouse ex ey) ;;
    s <- self ;;
    save_label (mx s) (my s) ;;
    s <- self ;;
    display_label (CInt (mx s)) (CInt (my s)) ;;
    modify (set_mouse_pressed true)
  else if event =? EVENT_LBUTTONUP then
    modify (set_mouse_pressed false)
  else if event =? EVENT_MOUSEMOVE then
    s <- self ;;
    if mouse_pressed s then
      modify (set_mouse ex ey) ;;
      s <- self ;;
      display_label (CInt (mx s)) (CInt (my s))
    else ret tt
  else ret tt.

(** The loop of [_save_matlab_file] over the labels still to export. *)
Fixpoint mat_entries (df : DataFrame.t) (data_name : string)
         (labels : list string) (df_out : gmap string mat_entry)
  : result (gmap string mat_entry) :=
  match labels with
  | [] => Ok df_out
  | label :: rest =>
      match DataFrame.getitem df (data_name, label, "x") with
      | Raise e => Raise e
      | Ok x_arr =>
      match DataFrame.getitem df (data_name, label, "y") with
      | Raise e => Raise e
      | Ok y_arr =>
      match DataFrame.getitem df (data_name, label, "likelihood") with
      | Raise e => Raise e
      | Ok ll_arr =>
          mat_entries df data_name rest
            (<[label := MatEntry x_arr y_arr ll_arr]> df_out)
      end end end
  end.

(** [_save_matlab_file] *)
Definition save_matlab_file : M string :=
  s <- self ;;
  let input_filename := fst (Py.splitext (Py.basename (Py.normpath (label_file s)))) in
  let folder := Py.dirname (Py.normpath (label_file s)) in
  let output_filename := (input_filename ++ ".mat")%string in
  let output_filepath := Py.normpath (Py.join folder output_filename) in
  df_out <- lift (mat_entries (label_data s) (data_name s) (label_names s) ∅) ;;
  modify (write_file output_filepath (MatFile df_out)) ;;
  ret output_filepath.

(** *** [run] *)

(** What the window delivers while [cv2.waitKey(0)] blocks: callbacks,
    then the key that ends the wait. *)
Inductive input : Type :=
| Mouse (event ex ey : Z)
| LabelTrackbar (val : Z)
| FrameTrackbar (val : Z)
| Key (key : Z).

(** A callback runs to its end or to its exception, which OpenCV prints
    and drops; the fields keep what the callback wrote. *)
Definition callback (m : M unit) (s : t) : t := snd (m s).

(** Lines 181-196: the top of an iteration, up to the drawing. *)
Definition loop_top : M unit :=
  s <- self ;;
  xy <- (if mouse_pressed s
         then save_label (mx s) (my s) ;; ret (CInt (mx s), CInt (my s))
         else get_label_xy) ;;
  draw_label (fst xy) (snd xy).

(** Lines 199-205: the key; the result is [running]. *)
Definition key_event (key : Z) : M bool :=
  s <- self ;;
  if key =? 44 then
    modify (set_current_frame (Z.max 0 (current_frame s - 1))) ;; ret true
  else if key =? 46 then
    modify (set_current_frame (Z.min (frame_count s) (current_frame s + 1))) ;; ret true
  else if key =? 27 then ret false
  else ret true.

(** Lines 207-218: after the loop. *)
Definition finish : M unit :=
  s <- self ;;
  if changes_made s then
    output_filepath <- save_matlab_file ;; ret tt
  else ret tt.

(** How a run stands after the inputs given to it. *)
Inductive outcome : Type :=
| Exited (s : t)              (* [run] returned *)
| Waiting (s : t)             (* blocked in [waitKey], no input left *)
| Crashed (e : exn) (s : t).  (* an exception left [run] *)

Definition state_of (o : outcome) : t :=
  match o with Exited s | Waiting s | Crashed _ s => s end.

(** The loop from inside [cv2.waitKey(0)]. *)
Fixpoint wait_key (inputs : list input) (s : t) : outcome :=
  match inputs with
  | [] => Waiting s
  | Mouse event ex ey :: rest => wait_key rest (callback (edit_label event ex ey) s)
  | LabelTrackbar val :: rest => wait_key rest (callback (on_label_trackbar val) s)
  | FrameTrackbar val :: rest => wait_key rest (callback (on_frame_trackbar val) s)
  | Key key :: rest =>
      match key_event key s with
      | (Raise e, s1) => Crashed e s1
      | (Ok false, s1) =>
          match finish s1 with
          | (Ok _, s2) => Exited s2
          | (Raise e, s2) => Crashed e s2
          end
      | (Ok true, s1) =>
          match loop_top s1 with
          | (Ok _, s2) => wait_key rest s2
          | (Raise e, s2) => Crashed e s2
          end
      end
  end.

(** [run]. At the top of an iteration [cv2.setTrackbarPos] is given
    [current_frame], so what the trackbar reports back is the value the
    field already has. *)
Definition run (inputs : list input) (s : t) : outcome :=
  match loop_top s with
  | (Ok _, s1) => wait_key inputs s1
  | (Raise e, s1) => Crashed e s1
  end.

(** [main], after the command line is read: build the editor, run it. *)
Definition main (label_file video_file : string) (table : DataFrame.t)
           (video_frames : Z) (inputs : list input) : result outcome :=
  match init label_file video_file table video_frames with
  | Ok editor => Ok (run inputs editor)
  | Raise e => Raise e
  end.

End Editor.

(* ===================================================================== *)
(** ** [matconverter.py]: class [MatConverter]                            *)
(* ===================================================================== *)

Module MatConverter.

Record t : Type := Build {
  label_file : string;
  label_data : DataFrame.t;
  data_name : string;
  label_names : list string;
  files : write_log
}.

(** [__init__]; [table] is what [pd.read_hdf(label_file)] returns. *)
Definition init (label_file : string) (table : DataFrame.t) : result t :=
  match Py.first (DataFrame.keys table) with
  | Raise e => Raise e
  | Ok k0 =>
      Ok {| label_file := label_file;
            label_data := table;
            data_name := fst (fst k0);
            label_names := Py.unique (map (fun k => snd (fst k)) (DataFrame.keys table));
            files := [] |}
  end.

(** The loop of [_save_matlab_file]. *)
Fixpoint mat_entries (c : t) (labels : list string)
         (df_out : gmap string mat_entry) : result (gmap string mat_entry) :=
  match labels with
  | [] => Ok df_out
  | label :: rest =>
      match DataFrame.getitem (label_data c) (data_name c, label, "x") with
      | Raise e => Raise e
      | Ok x_arr =>
      match DataFrame.getitem (label_data c) (data_name c, label, "y") with
      | Raise e => Raise e
      | Ok y_arr =>
      match DataFrame.getitem (label_data c) (data_name c, label, "likelihood") with
      | Raise e => Raise e
      | Ok ll_arr =>
          mat_entries c rest (<[label := MatEntry x_arr y_arr ll_arr]> df_out)
      end end end
  end.

(** [_save_matlab_file] *)
Definition save_matlab_file (c : t) : result string * t :=
  let input_filename := fst (Py.splitext (Py.basename (Py.normpath (label_file c)))) in
  let folder := Py.dirname (Py.normpath (label_file c)) in
  let output_filename := (input_filename ++ ".mat")%string in
  let output_filepath := Py.normpath (Py.join folder output_filename) in
  match mat_entries c (label_names c) ∅ with
  | Raise e => (Raise e, c)
  | Ok df_out =>
      (Ok output_filepath,
       Build (label_file c) (label_data c) (data_name c) (label_names c)
             ((output_filepath, MatFile df_out) :: files c))
  end.

(** [run] *)
Definition run (c : t) : result unit * t :=
  match save_matlab_file c with
  | (Ok _, c') => (Ok tt, c')
  | (Raise e, c') => (Raise e, c')
  end.

End MatConverter.

(* ===================================================================== *)
(** ** The output path as the specification words it                      *)
(* ===================================================================== *)

Module Spec.

(** [s.endswith(suffix)] *)
Definition ends_with (suffix s : string) : bool :=
  Py.starts_with (rev (list_ascii_of_string suffix)) (rev (list_ascii_of_string s)).

(** [s] with a trailing [suffix] removed, if present. *)
Definition remove_suffix (suffix s : string) : string :=
  if ends_with suffix s
  then Py.take (String.length s - String.length suffix) s
  else s.

(** "[<dir>/<base-without-"_Fixed"-suffix>_Fixed.<ext>]": the directory
    of the input joined with its base name, a trailing "_Fixed" removed,
    then "_Fixed" and the extension of the input. *)
Definition primary_output_path (label_file : string) : string :=
  let p := Py.normpath label_file in
  let base := fst (Py.splitext (Py.basename p)) in
  let ext := snd (Py.splitext (Py.basename p)) in
  Py.normpath (Py.join (Py.dirname p)
                 (remove_suffix "_Fixed" base ++ "_Fixed" ++ ext)%string).

End Spec.

(* ===================================================================== *)
(** ** Sample data                                                        *)
(* ===================================================================== *)

Module Sample.

Definition f (z : Z) : Float64.t := Float64.of_int z.

(** The binary64 value [z / 2]. *)
Definition halves (z : Z) : Float64.t := binary_normalize 53 1024 z (-1) false.

(** Three frames, one label; the point is missing at frame 1. *)
Definition nose : DataFrame.t :=
  [ (("dlc", "nose", "x"), [f 10; Float64.nan; f 30]);
    (("dlc", "nose", "y"), [f 10; Float64.nan; f 30]);
    (("dlc", "nose", "likelihood"), [f 1; f 0; f 1]) ].

(** Two labels; at frame 1 [tail] has an [x] but no [y], and at frame 2
    a [y] but no [x]; [nose] sits between pixels at frame 0. *)
Definition ragged : DataFrame.t :=
  [ (("dlc", "tail", "x"), [f 4; f 1; Float64.nan]);
    (("dlc", "tail", "y"), [f 5; Float64.nan; f 2]);
    (("dlc", "tail", "likelihood"), [f 1; f 1; f 1]);
    (("dlc", "nose", "x"), [halves 5; f 7; f 8]);
    (("dlc", "nose", "y"), [halves 7; f 7; f 8]);
    (("dlc", "nose", "likelihood"), [f 1; f 1; f 1]) ].

(** Pointer events at a pixel. *)
Definition press (x y : Z) : Editor.input := Editor.Mouse Editor.EVENT_LBUTTONDOWN x y.
Definition move (x y : Z) : Editor.input := Editor.Mouse Editor.EVENT_MOUSEMOVE x y.
Definition release (x y : Z) : Editor.input := Editor.Mouse Editor.EVENT_LBUTTONUP x y.

(** A session on one of the tables: three frames of video. *)
Definition start (table : DataFrame.t) (inputs : list Editor.input)
  : result Editor.outcome :=
  Editor.main "/data/run1.h5" "/data/run1.avi" table 3 inputs.

End Sample.

(* ===================================================================== *)
(** ** Predicates on tables, sessions and strings                         *)
(* ===================================================================== *)

Section Predicates.

Import Editor.

(** The table file has been written exactly when an edit was recorded,
    always at the path fixed by [__init__], and nothing at all has been
    written before the first edit. *)
Definition files_follow_edits (fixed : string) (s : t) : Prop :=
  fixed_label_file s = fixed
  /\ existsb is_h5 (files s) = changes_made s
  /\ (changes_made s = false -> files s = [])
  /\ (forall w, In w (files s) -> is_h5 w = true -> fst w = fixed).

(** Missing-together: wherever a label has both an [x] and a [y] cell
    at a frame, either both are NaN or neither is. *)
Definition missing_together (df : DataFrame.t) : Prop :=
  forall (subject label : string) (frame : Z) (vx vy : Float64.t),
    DataFrame.cell df (subject, label, "x") frame = Some vx ->
    DataFrame.cell df (subject, label, "y") frame = Some vy ->
    Float64.isnan vx = Float64.isnan vy.

(** A check of missing-together on a given table: every [x] column is
    compared, row by row, with the [y] column of its label. *)
Fixpoint columns_agree (cx cy : list Float64.t) : bool :=
  match cx, cy with
  | a :: cx', b :: cy' =>
      Bool.eqb (Float64.isnan a) (Float64.isnan b) && columns_agree cx' cy'
  | _, _ => true
  end.

(** The check over all the [x] columns of a table. *)
Definition missing_together_check (df : DataFrame.t) : bool :=
  forallb (fun k : DataFrame.key =>
             let '(subject, label, channel) := k in
             if String.eqb channel "x" then
               match DataFrame.getitem df k, DataFrame.getitem df (subject, label, "y") with
               | Ok cx, Ok cy => columns_agree cx cy
               | _, _ => true
               end
             else true)
          (DataFrame.keys df).

(** An input the window can deliver: a frame trackbar reports values
    inside the range it was created with. *)
Definition deliverable (s : t) (i : input) : Prop :=
  match i with
  | FrameTrackbar val => 0 <= val <= frame_count s
  | _ => True
  end.

(** The three columns of a label, as one entry of the MAT dictionary. *)
Definition column_entry (df : DataFrame.t) (subject label : string)
  : option mat_entry :=
  match DataFrame.getitem df (subject, label, "x"),
        DataFrame.getitem df (subject, label, "y"),
        DataFrame.getitem df (subject, label, "likelihood") with
  | Ok x_arr, Ok y_arr, Ok ll_arr => Some (MatEntry x_arr y_arr ll_arr)
  | _, _, _ => None
  end.

(** What a run never changes: the path of the input, the subject, the
    labels and the columns of the table. *)
Definition same_schema (s0 s : t) : Prop :=
  label_file s = label_file s0
  /\ data_name s = data_name s0
  /\ label_names s = label_names s0
  /\ DataFrame.keys (label_data s) = DataFrame.keys (label_data s0).

(** A check that [sep] occurs in [s] at the end or not at all. *)
Fixpoint trailing_only (sep s : list ascii) : bool :=
  match s with
  | [] => true
  | _ :: s' =>
      (if Py.starts_with sep s then Nat.eqb (length s) (length sep) else true)
      && trailing_only sep s'
  end.

End Predicates.

(* ===================================================================== *)
(** ** Further predicates on tables and sessions                          *)
(* ===================================================================== *)

Section MorePredicates.

Import Editor.

(** The shape of a table: its columns, in order, with their row counts. *)
Definition table_shape (df : DataFrame.t) : list (DataFrame.key * nat) :=
  map (fun c => (fst c, length (snd c))) df.

(** Every label that has an [x] column under the editor's subject has
    its [y] column too. *)
Definition xy_paired (s : t) : Prop :=
  forall l cx,
    DataFrame.getitem (label_data s) (data_name s, l, "x") = Ok cx ->
    is_ok (DataFrame.getitem (label_data s) (data_name s, l, "y")) = true.

(** The check of [xy_paired] over the columns of a table. *)
Definition xy_paired_check (s : t) : bool :=
  forallb (fun k : DataFrame.key =>
             let '(subject, label, channel) := k in
             if String.eqb subject (data_name s) && String.eqb channel "x"
             then is_ok (DataFrame.getitem (label_data s) (data_name s, label, "y"))
             else true)
          (DataFrame.keys (label_data s)).

(** The table files written so far, the latest first. *)
Definition table_files (s : t) : write_log := filter is_h5 (files s).

(** The path of the MAT file: the input's directory and base name, with
    the extension [.mat]. *)
Definition mat_path (label_file : string) : string :=
  Py.normpath
    (Py.join (Py.dirname (Py.normpath label_file))
       (fst (Py.splitext (Py.basename (Py.normpath label_file))) ++ ".mat")%string).

(** Ascending order of label names, by character code. *)
Definition name_lt (a b : string) : Prop := String.compare a b = Lt.

(** A table of two subjects: the label [tail] belongs to the second. *)
Definition two_subjects : DataFrame.t :=
  [ (("mouse1", "nose", "x"), [Float64.of_int 1]);
    (("mouse1", "nose", "y"), [Float64.of_int 2]);
    (("mouse1", "nose", "likelihood"), [Float64.of_int 1]);
    (("mouse2", "tail", "x"), [Float64.of_int 3]);
    (("mouse2", "tail", "y"), [Float64.of_int 4]);
    (("mouse2", "tail", "likelihood"), [Float64.of_int 1]) ].

End MorePredicates.

(* ===================================================================== *)
(** ** The command lines: [read_cli_parameters] and [main]                *)
(* ===================================================================== *)

(** How reading the command line ends: with the parameters, with a failed
    [assert] (its message), or with another exception. *)
Inductive cli (A : Type) : Type :=
| Parsed (a : A)
| AssertionError (message : string)
| Uncaught (e : exn).
Arguments Parsed {A} a.
Arguments AssertionError {A} message.
Arguments Uncaught {A} e.

(** How a process ends: [sys.exit(2)] after printing the message, a
    traceback, or the return of [run]. *)
Inductive exit (A : Type) : Type :=
| SysExit2 (printed : string)
| Traceback (e : exn)
| Returned (a : A).
Arguments SysExit2 {A} printed.
Arguments Traceback {A} e.
Arguments Returned {A} a.

Module PyStr.

(** [c.lower()] for a character: the letters [A] to [Z] become [a] to
    [z]; every other byte is kept. *)
Definition lower_char (c : ascii) : ascii :=
  let n := nat_of_ascii c in
  if (Nat.leb 65 n && Nat.leb n 90)%bool then ascii_of_nat (n + 32) else c.

(** [s.lower()] *)
Fixpoint lower (s : string) : string :=
  match s with
  | EmptyString => EmptyString
  | String c s' => String (lower_char c) (lower s')
  end.

End PyStr.

Module EditorCli.

(** The namespace [parser.parse_args()] returns: the two paths, and the
    three optional arguments with their defaults applied. *)
Record args : Type := Args {
  labelfile : string;
  videofile : string;
  color : string;
  size : string;
  thickness : string
}.

(** The defaults of the optional arguments. *)
Definition namespace (labelfile videofile : string)
           (color size thickness : option string) : args :=
  Args labelfile videofile
       (match color with Some c => c | None => "blue" end)
       (match size with Some n => n | None => "40" end)
       (match thickness with Some n => n | None => "2" end).

Section WithSystem.

(** [os.path.isfile] on the file system of the run. *)
Variable isfile : string -> bool.
(** [int] on a string. *)
Variable py_int : string -> result Z.
(** [pd.read_hdf] and the frame count of [cv2.VideoCapture]. *)
Variable read_hdf : string -> DataFrame.t.
Variable frame_count_of : string -> Z.

(** [read_cli_parameters] of [editor.py] *)
Definition read_cli_parameters (a : args)
  : cli (string * string * list Z * Z * Z) :=
  let label_file := labelfile a in
  let video_file := videofile a in
  let marker_color := PyStr.lower (color a) in
  match py_int (size a) with
  | Raise e => Uncaught e
  | Ok marker_size =>
  match py_int (thickness a) with
  | Raise e => Uncaught e
  | Ok marker_thickness =>
    if negb (isfile label_file) then
      AssertionError ("Label file does not exist: " ++ label_file)%string
    else if negb (isfile video_file) then
      AssertionError ("Video file does not exist: " ++ video_file)%string
    else if negb (String.eqb (PyStr.lower (snd (Py.splitext label_file))) ".h5") then
      AssertionError ("Label file is not *.H5: " ++ label_file)%string
    else
      let video_ext := PyStr.lower (snd (Py.splitext video_file)) in
      if negb (String.eqb video_ext ".avi" || String.eqb video_ext ".mp4") then
        AssertionError ("Video file is not *.AVI or *.MP4: " ++ video_file)%string
      else if String.eqb marker_color "red" then
        Parsed (label_file, video_file, [0; 0; 255], marker_size, marker_thickness)
      else if String.eqb marker_color "green" then
        Parsed (label_file, video_file, [0; 255; 0], marker_size, marker_thickness)
      else if String.eqb marker_color "blue" then
        Parsed (label_file, video_file, [255; 0; 0], marker_size, marker_thickness)
      else
        AssertionError ("Color is not red, green or blue: " ++ marker_color)%string
  end end.

(** [main] of [editor.py]: only [AssertionError] is caught. *)
Definition main (a : args) (inputs : list Editor.input) : exit Editor.outcome :=
  match read_cli_parameters a with
  | AssertionError message => SysExit2 message
  | Uncaught e => Traceback e
  | Parsed (label_file, video_file, _, _, _) =>
      match Editor.init label_file video_file (read_hdf label_file)
                        (frame_count_of video_file) with
      | Raise e => Traceback e
      | Ok editor =>
          match Editor.run inputs editor with
          | Editor.Crashed e _ => Traceback e
          | o => Returned o
          end
      end
  end.

End WithSystem.

End EditorCli.

Module ConverterCli.

Section WithSystem.

Variable isfile : string -> bool.
Variable read_hdf : string -> DataFrame.t.

(** [read_cli_parameters] of [matconverter.py] *)
Definition read_cli_parameters (labelfile : string) : cli string :=
  let label_file := labelfile in
  if negb (isfile label_file) then
    AssertionError ("Label file does not exist: " ++ label_file)%string
  else if negb (String.eqb (PyStr.lower (snd (Py.splitext label_file))) ".h5") then
    AssertionError ("Label file is not *.H5: " ++ label_file)%string
  else Parsed label_file.

(** [main] of [matconverter.py] *)
Definition main (labelfile : string) : exit MatConverter.t :=
  match read_cli_parameters labelfile with
  | AssertionError message => SysExit2 message
  | Uncaught e => Traceback e
  | Parsed label_file =>
      match MatConverter.init label_file (read_hdf label_file) with
      | Raise e => Traceback e
      | Ok editor =>
          match MatConverter.run editor with
          | (Ok _, c) => Returned c
          | (Raise e, _) => Traceback e
          end
      end
  end.

End WithSystem.

End ConverterCli.

(** A file system on which every path is a file, the conversion of the
    two default numbers, and a reader that finds the same table in every
    file. *)
Definition any_file (path : string) : bool := true.
Definition int_of_defaults (text : string) : result Z :=
  if String.eqb text "40" then Ok 40
  else if String.eqb text "2" then Ok 2
  else Raise ValueError.
Definition always_reads (table : DataFrame.t) (path : string) : DataFrame.t := table.

(* ===================================================================== *)
(** * Properties                                                          *)
(* ===================================================================== *)

(** Closes a conjunction of closed equations by evaluation, left to
    right (the first may fix an existential witness). *)
Ltac compute_conj :=
  repeat match goal with
         | |- _ /\ _ => split; [vm_compute; reflexivity |]
         end;
  vm_compute; reflexivity.

(** ** binary64 facts *)

Section Float64Facts.

Lemma shr_1_nonneg (mrs : shr_record) :
  0 <= shr_m mrs -> 0 <= shr_m (shr_1 mrs).
Proof.
  destruct mrs as [m r s]; simpl.
  destruct m as [|p|p]; [simpl; lia | destruct p; simpl; lia | lia].
Qed.

Lemma iter_pos_invariant {A} (f : A -> A) (P : A -> Prop) :
  (forall a, P a -> P (f a)) ->
  forall (n : positive) (a : A), P a -> P (SpecFloat.iter_pos f n a).
Proof.
  intros Hf n. induction n as [n IH|n IH|]; intros a Ha; simpl; auto.
Qed.

Lemma shr_nonneg (mrs : shr_record) (e n : Z) :
  0 <= shr_m mrs -> 0 <= shr_m (fst (shr mrs e n)).
Proof.
  intros H. destruct n as [|p|p]; simpl; auto.
  apply (iter_pos_invariant shr_1 (fun r => 0 <= shr_m r)); auto using shr_1_nonneg.
Qed.

Lemma shr_fexp_nonneg (prec emax m e : Z) (l : location) :
  0 <= m -> 0 <= shr_m (fst (shr_fexp prec emax m e l)).
Proof.
  intros H. unfold shr_fexp. apply shr_nonneg.
  destruct l as [|[| |]]; simpl; assumption.
Qed.

Lemma round_nearest_even_nonneg (m : Z) (l : location) :
  0 <= m -> 0 <= round_nearest_even m l.
Proof.
  intros H. destruct l as [|[| |]]; simpl; try lia.
  destruct (Z.even m); lia.
Qed.

Lemma binary_round_aux_not_nan (prec emax : Z) (sx : bool) (mx ex : Z) (lx : location) :
  0 <= mx -> Float64.isnan (binary_round_aux prec emax sx mx ex lx) = false.
Proof.
  intros H. unfold binary_round_aux.
  pose proof (shr_fexp_nonneg prec emax mx ex lx H) as H1.
  destruct (shr_fexp prec emax mx ex lx) as [mrs' e'] eqn:E1. simpl in H1.
  pose proof (shr_fexp_nonneg prec emax _ e' loc_Exact
                (round_nearest_even_nonneg _ (loc_of_shr_record mrs') H1)) as H2.
  destruct (shr_fexp prec emax _ e' loc_Exact) as [mrs'' e''] eqn:E2. simpl in H2.
  destruct (shr_m mrs'') as [|p|p]; [reflexivity | | lia].
  destruct (Z.leb e'' (emax - prec)); reflexivity.
Qed.

(** A coordinate written by the editor is never the missing sentinel. *)
Lemma of_int_not_nan (z : Z) : Float64.isnan (Float64.of_int z) = false.
Proof.
  unfold Float64.of_int, binary_normalize.
  destruct z as [|p|p]; [reflexivity | |];
    unfold binary_round;
    destruct (shl_align _ _ _) as [mz ez];
    apply binary_round_aux_not_nan; lia.
Qed.

End Float64Facts.

(** ** Table facts *)

Section DataFrameFacts.

Import DataFrame.

Lemma key_eqb_eq (a b : key) : key_eqb a b = true <-> a = b.
Proof.
  destruct a as [[a0 a1] a2], b as [[b0 b1] b2]. unfold key_eqb.
  rewrite !andb_true_iff, !String.eqb_eq. split.
  - intros [[-> ->] ->]. reflexivity.
  - intros H. injection H as -> -> ->. auto.
Qed.

Lemma key_eqb_refl (a : key) : key_eqb a a = true.
Proof. apply key_eqb_eq. reflexivity. Qed.

Lemma key_eqb_neq (a b : key) : key_eqb a b = false <-> a <> b.
Proof.
  rewrite <- key_eqb_eq. destruct (key_eqb a b); split; congruence.
Qed.

Lemma series_set_length (col : list Float64.t) (i : Z) (v : Float64.t) :
  length (series_set col i v) = length col.
Proof.
  unfold series_set. destruct (i <? 0); [reflexivity | apply length_insert].
Qed.

(** A write succeeds exactly when the column exists. *)
Lemma setitem_ok (df : t) (k : key) (i : Z) (v : Float64.t) (col : list Float64.t) :
  getitem df k = Ok col -> exists df', setitem df k i v = Ok df'.
Proof.
  induction df as [|[k' c] rest IH]; simpl; [discriminate |].
  destruct (key_eqb k' k); [eauto |].
  intros H. destruct (IH H) as [rest' ->]. eauto.
Qed.

Lemma setitem_raise (df : t) (k : key) (i : Z) (v : Float64.t) (e : exn) :
  getitem df k = Raise e -> setitem df k i v = Raise e.
Proof.
  induction df as [|[k' c] rest IH]; simpl; [intros [= <-]; reflexivity |].
  destruct (key_eqb k' k); [discriminate |].
  intros H. rewrite (IH H). reflexivity.
Qed.

(** A write keeps the columns and their order. *)
Lemma setitem_keys (df df' : t) (k : key) (i : Z) (v : Float64.t) :
  setitem df k i v = Ok df' -> keys df' = keys df.
Proof.
  revert df'. induction df as [|[k' c] rest IH]; simpl; intros df'; [discriminate |].
  destruct (key_eqb k' k).
  - intros [= <-]. reflexivity.
  - destruct (setitem rest k i v) as [rest'|] eqn:E; [|discriminate].
    intros [= <-]. simpl. f_equal. apply IH. reflexivity.
Qed.

Lemma getitem_setitem_same (df df' : t) (k : key) (i : Z) (v : Float64.t) :
  setitem df k i v = Ok df' ->
  exists col, getitem df k = Ok col /\ getitem df' k = Ok (series_set col i v).
Proof.
  revert df'. induction df as [|[k' c] rest IH]; simpl; intros df'; [discriminate |].
  destruct (key_eqb k' k) eqn:Ek.
  - intros [= <-]. simpl. rewrite Ek. eauto.
  - destruct (setitem rest k i v) as [rest'|] eqn:E; [|discriminate].
    intros [= <-]. simpl. rewrite Ek. apply IH. reflexivity.
Qed.

Lemma getitem_setitem_other (df df' : t) (k k' : key) (i : Z) (v : Float64.t) :
  k' <> k -> setitem df k i v = Ok df' -> getitem df' k' = getitem df k'.
Proof.
  intros Hne. revert df'.
  induction df as [|[k0 c] rest IH]; simpl; intros df'; [discriminate |].
  destruct (key_eqb k0 k) eqn:Ek.
  - intros [= <-]. simpl. apply key_eqb_eq in Ek. subst k0.
    assert (key_eqb k k' = false) as -> by (apply key_eqb_neq; congruence).
    reflexivity.
  - destruct (setitem rest k i v) as [rest'|] eqn:E; [|discriminate].
    intros [= <-]. simpl. destruct (key_eqb k0 k'); [reflexivity |].
    apply IH. reflexivity.
Qed.

(** Reading a cell after a write: the written cell holds the new value
    when its row exists, every other cell is as before. *)
Lemma cell_setitem_same (df df' : t) (k : key) (i : Z) (v v0 : Float64.t) :
  setitem df k i v = Ok df' -> cell df k i = Some v0 -> cell df' k i = Some v.
Proof.
  intros Hs Hc. destruct (getitem_setitem_same _ _ _ _ _ Hs) as [col [Hg Hg']].
  unfold cell in *. rewrite Hg in Hc. rewrite Hg'.
  unfold series_set. destruct (i <? 0); [discriminate |].
  apply list_lookup_insert_eq. apply lookup_lt_Some in Hc. exact Hc.
Qed.

Lemma cell_setitem_other (df df' : t) (k k' : key) (i j : Z) (v : Float64.t) :
  (k', j) <> (k, i) -> setitem df k i v = Ok df' -> cell df' k' j = cell df k' j.
Proof.
  intros Hne Hs. unfold cell.
  destruct (key_eqb k' k) eqn:Ek.
  - apply key_eqb_eq in Ek. subst k'.
    destruct (getitem_setitem_same _ _ _ _ _ Hs) as [col [Hg Hg']].
    rewrite Hg, Hg'. destruct (j <? 0) eqn:Ej; [reflexivity |].
    unfold series_set. destruct (i <? 0) eqn:Ei; [reflexivity |].
    apply list_lookup_insert_ne. intros Heq. apply Hne. f_equal. lia.
  - apply key_eqb_neq in Ek.
    rewrite (getitem_setitem_other _ _ _ _ _ _ Ek Hs). reflexivity.
Qed.

(** A cell a write leaves missing was missing before: writes only ever
    put a value where there was a row. *)
Lemma cell_setitem_cases (df df' : t) (k k' : key) (i j : Z) (v w : Float64.t) :
  setitem df k i v = Ok df' -> cell df' k' j = Some w ->
  (k' = k /\ j = i /\ w = v /\ exists w0, cell df k i = Some w0)
  \/ cell df k' j = Some w.
Proof.
  intros Hs Hc.
  destruct (key_eqb k' k) eqn:Ek.
  - apply key_eqb_eq in Ek. subst k'.
    destruct (Z.eq_dec j i) as [->|Hne].
    + left. destruct (getitem_setitem_same _ _ _ _ _ Hs) as [col [Hg Hg']].
      unfold cell in *. rewrite Hg' in Hc. rewrite Hg. unfold series_set in Hc.
      destruct (i <? 0); [discriminate |].
      destruct (decide (Z.to_nat i < length col)%nat) as [Hlt|Hge].
      * rewrite list_lookup_insert_eq in Hc by exact Hlt. injection Hc as <-.
        destruct (lookup_lt_is_Some_2 col _ Hlt) as [w0 Hw0]. eauto.
      * rewrite list_insert_ge in Hc by lia.
        apply lookup_lt_Some in Hc. lia.
    + right. rewrite <- Hc. symmetry.
      apply cell_setitem_other with (k := k) (i := i) (v := v); [congruence | exact Hs].
  - right. apply key_eqb_neq in Ek. rewrite <- Hc. symmetry.
    apply cell_setitem_other with (k := k) (i := i) (v := v); [congruence | exact Hs].
Qed.

End DataFrameFacts.

(** ** The methods of the editor, one by one *)

Section EditorMethods.

Import Editor.

(** Unfolds the monad until the next method call. *)
Ltac monad := unfold bind, lift, self, modify, ret, display_label, draw_label in *.

(** Reading the coordinate leaves every field as it was, whatever it
    returns or raises. *)
Lemma get_label_xy_state (s : t) : snd (get_label_xy s) = s.
Proof.
  unfold get_label_xy. monad.
  repeat match goal with
         | |- context [match ?r with Ok _ => _ | Raise _ => _ end] => destruct r
         | |- context [if ?b then _ else _] => destruct b
         end; reflexivity.
Qed.

(** The three ways [_save_label] can end: before any write (no such label
    index, no [x] column), between the two writes (no [y] column), or
    after both writes, the table file and the flag. *)
Lemma save_label_cases (s : t) (x y : Z) :
  (exists e, save_label x y s = (Raise e, s))
  \/ (exists e name df1,
        Py.array_get (label_names s) (current_label s) = Ok name
        /\ DataFrame.setitem (label_data s) (data_name s, name, "x")
             (current_frame s) (Float64.of_int x) = Ok df1
        /\ DataFrame.getitem df1 (data_name s, name, "y") = Raise e
        /\ save_label x y s = (Raise e, set_label_data df1 s))
  \/ (exists name df1 df2,
        Py.array_get (label_names s) (current_label s) = Ok name
        /\ DataFrame.setitem (label_data s) (data_name s, name, "x")
             (current_frame s) (Float64.of_int x) = Ok df1
        /\ DataFrame.setitem df1 (data_name s, name, "y")
             (current_frame s) (Float64.of_int y) = Ok df2
        /\ save_label x y s =
             (Ok tt, set_changes_made true
                       (write_file (fixed_label_file s) (H5File df2)
                          (set_label_data df2 s)))).
Proof.
  unfold save_label. monad.
  destruct (Py.array_get (label_names s) (current_label s)) as [name|e] eqn:En;
    [|left; eauto].
  destruct (DataFrame.setitem (label_data s) _ _ _) as [df1|e] eqn:E1;
    [|left; eauto].
  simpl. rewrite En.
  destruct (DataFrame.setitem df1 _ _ _) as [df2|e] eqn:E2.
  - right; right. exists name, df1, df2. auto.
  - right; left. exists e, name, df1. repeat split; auto.
    destruct (DataFrame.getitem df1 (data_name s, name, "y")) as [col|e'] eqn:Eg.
    + destruct (setitem_ok df1 _ (current_frame s) (Float64.of_int y) _ Eg) as [df' Hd].
      congruence.
    + rewrite (setitem_raise _ _ (current_frame s) (Float64.of_int y) _ Eg) in E2.
      congruence.
Qed.

(** [_save_matlab_file] writes the MAT file or raises with nothing
    written. *)
Lemma save_matlab_file_cases (s : t) :
  (exists e, save_matlab_file s = (Raise e, s))
  \/ (exists path df_out,
        mat_entries (label_data s) (data_name s) (label_names s) ∅ = Ok df_out
        /\ save_matlab_file s = (Ok path, write_file path (MatFile df_out) s)).
Proof.
  unfold save_matlab_file. monad.
  destruct (mat_entries _ _ _ _) as [df_out|e]; [right | left]; eauto.
Qed.

End EditorMethods.

(** ** Invariants of a run *)

Section RunInvariant.

Import Editor.

(** A property of the fields that the cursor and pointer updates keep,
    that [_save_label] keeps however it ends, and that the MAT export
    keeps when it runs (after an edit). *)
Variable P : t -> Prop.
Hypothesis P_label : forall v s, P s -> P (set_current_label v s).
Hypothesis P_frame : forall v s, P s -> P (set_current_frame v s).
Hypothesis P_mouse : forall x y s, P s -> P (set_mouse x y s).
Hypothesis P_pressed : forall b s, P s -> P (set_mouse_pressed b s).
Hypothesis P_save : forall x y s, P s -> P (snd (save_label x y s)).
Hypothesis P_mat :
  forall s, changes_made s = true -> P s -> P (snd (save_matlab_file s)).

Ltac monad := unfold bind, lift, self, modify, ret, display_label, draw_label in *.

Lemma inv_on_label_trackbar (val : Z) (s : t) :
  P s -> P (callback (on_label_trackbar val) s).
Proof.
  intros H. unfold callback, on_label_trackbar. monad.
  pose proof (get_label_xy_state (set_current_label val s)) as E.
  destruct (get_label_xy _) as [[xy|e] s']; simpl in *; subst; auto.
Qed.

Lemma inv_on_frame_trackbar (val : Z) (s : t) :
  P s -> P (callback (on_frame_trackbar val) s).
Proof.
  intros H. unfold callback, on_frame_trackbar. monad.
  pose proof (get_label_xy_state (set_current_frame val s)) as E.
  destruct (get_label_xy _) as [[xy|e] s']; simpl in *; subst; auto.
Qed.

Lemma inv_edit_label (event ex ey : Z) (s : t) :
  P s -> P (callback (edit_label event ex ey) s).
Proof.
  intros H. unfold callback, edit_label. monad.
  destruct (event =? EVENT_LBUTTONDOWN).
  - pose proof (P_save (mx (set_mouse ex ey s)) (my (set_mouse ex ey s)) _
                  (P_mouse ex ey s H)) as Hs.
    destruct (save_label _ _ _) as [[u|e] s']; simpl in *; auto.
  - destruct (event =? EVENT_LBUTTONUP); [simpl; auto |].
    destruct (event =? EVENT_MOUSEMOVE); [|simpl; auto].
    destruct (mouse_pressed s); simpl; auto.
Qed.

Lemma inv_key_event (key : Z) (s : t) :
  P s -> P (snd (key_event key s)).
Proof.
  intros H. unfold key_event. monad.
  destruct (key =? 44); [simpl; auto |].
  destruct (key =? 46); [simpl; auto |].
  destruct (key =? 27); simpl; auto.
Qed.

Lemma inv_loop_top (s : t) : P s -> P (snd (loop_top s)).
Proof.
  intros H. unfold loop_top. monad.
  destruct (mouse_pressed s).
  - pose proof (P_save (mx s) (my s) s H) as Hs.
    destruct (save_label _ _ _) as [[u|e] s']; simpl in *; auto.
  - pose proof (get_label_xy_state s) as E.
    destruct (get_label_xy s) as [[xy|e] s']; simpl in *; subst; auto.
Qed.

Lemma inv_finish (s : t) : P s -> P (snd (finish s)).
Proof.
  intros H. unfold finish. monad.
  destruct (changes_made s) eqn:Ec; [|simpl; auto].
  pose proof (P_mat s Ec H) as Hm.
  destruct (save_matlab_file s) as [[p|e] s']; simpl in *; auto.
Qed.

Lemma inv_wait_key (inputs : list input) :
  forall s, P s -> P (state_of (wait_key inputs s)).
Proof.
  induction inputs as [|i rest IH]; intros s H; simpl; [exact H |].
  destruct i as [event ex ey|val|val|key].
  - apply IH, inv_edit_label, H.
  - apply IH, inv_on_label_trackbar, H.
  - apply IH, inv_on_frame_trackbar, H.
  - pose proof (inv_key_event key s H) as Hk.
    destruct (key_event key s) as [[[|]|e] s1]; simpl in Hk.
    + pose proof (inv_loop_top s1 Hk) as Hl.
      destruct (loop_top s1) as [[u|e] s2]; simpl in *; auto.
    + pose proof (inv_finish s1 Hk) as Hf.
      destruct (finish s1) as [[u|e] s2]; simpl in *; auto.
    + exact Hk.
Qed.

(** Such a property holds wherever a run stands, after any inputs. *)
Lemma inv_run (inputs : list input) (s : t) :
  P s -> P (state_of (run inputs s)).
Proof.
  intros H. unfold run.
  pose proof (inv_loop_top s H) as Hl.
  destruct (loop_top s) as [[u|e] s1]; simpl in *; [|exact Hl].
  apply inv_wait_key, Hl.
Qed.

End RunInvariant.

(** ** The files of a session (C4, C5) *)

Section SessionFiles.

Import Editor.

Lemma files_follow_edits_run (fixed : string) (inputs : list input) (s : t) :
  files_follow_edits fixed s -> files_follow_edits fixed (state_of (run inputs s)).
Proof.
  apply inv_run; clear s; unfold files_follow_edits; try (intros; simpl; assumption).
  - intros x y s (Hf & He & Hn & Hw).
    destruct (save_label_cases s x y)
      as [[e ->]|[(e & name & df1 & _ & _ & _ & ->)|(name & df1 & df2 & _ & _ & _ & ->)]];
      simpl; auto.
    repeat split; auto; [discriminate |].
    intros w [<-|Hin] Hh; simpl; auto.
  - intros s Hc (Hf & He & Hn & Hw).
    destruct (save_matlab_file_cases s) as [[e ->]|(path & df_out & _ & ->)]; simpl; auto.
    rewrite Hc in *. repeat split; auto; [discriminate |].
    intros w [<-|Hin] Hh; simpl in *; [discriminate | auto].
Qed.

Lemma files_follow_edits_init (label_file video_file : string)
      (table : DataFrame.t) (video_frames : Z) (s0 : t) :
  init label_file video_file table video_frames = Ok s0 ->
  files_follow_edits (fixed_label_file s0) s0.
Proof.
  unfold init. destruct (output_path label_file); [|discriminate].
  destruct (Py.first _); [|discriminate].
  intros [= <-]. unfold files_follow_edits. simpl. repeat split; auto.
  intros w [].
Qed.

(** C4. A session that ends with [changes_made] still false (no edit
    was recorded) has written no file at all: neither the corrected
    table nor the MAT file, wherever the run stands. *)
Theorem no_edit_no_output_files
        (label_file video_file : string) (table : DataFrame.t)
        (video_frames : Z) (inputs : list input) (o : outcome) :
  main label_file video_file table video_frames inputs = Ok o ->
  changes_made (state_of o) = false ->
  files (state_of o) = [].
Proof.
  unfold main.
  destruct (init label_file video_file table video_frames) as [s0|e] eqn:E;
    [|discriminate].
  intros [= <-] Hc.
  destruct (files_follow_edits_run _ inputs s0 (files_follow_edits_init _ _ _ _ _ E))
    as (_ & _ & Hn & _).
  auto.
Qed.

Lemma no_edit_no_output_files_witness :
  exists o,
    Sample.start Sample.nose [FrameTrackbar 1; Sample.move 4 4; Key 46; Key 27] = Ok o
    /\ changes_made (state_of o) = false
    /\ files (state_of o) = [].
Proof.
  eexists. split; [vm_compute; reflexivity |].
  split; [reflexivity |].
  eapply (no_edit_no_output_files "/data/run1.h5" "/data/run1.avi" Sample.nose 3
            [FrameTrackbar 1; Sample.move 4 4; Key 46; Key 27]);
    vm_compute; reflexivity.
Defined.

(** Only a left-button press starts an edit: without one the flag stays
    false. *)
Lemma no_press_no_edit (inputs : list input) (s : t) :
  (forall ex ey, ~ In (Mouse EVENT_LBUTTONDOWN ex ey) inputs) ->
  mouse_pressed s = false -> changes_made s = false ->
  changes_made (state_of (run inputs s)) = false.
Proof.
  intros Hin Hp Hc.
  assert (Hget : forall s1, snd (loop_top s1) = s1 \/ mouse_pressed s1 = true).
  { intros s1. unfold loop_top, bind, self, draw_label, ret.
    destruct (mouse_pressed s1); [auto | left].
    pose proof (get_label_xy_state s1) as E.
    destruct (get_label_xy s1) as [[xy|e] s']; simpl in *; auto. }
  assert (Hw : forall inputs s,
             (forall ex ey, ~ In (Mouse EVENT_LBUTTONDOWN ex ey) inputs) ->
             mouse_pressed s = false -> changes_made s = false ->
             changes_made (state_of (wait_key inputs s)) = false).
  { clear - Hget. intros inputs. induction inputs as [|i rest IH]; intros s Hin Hp Hc;
      simpl; [exact Hc |].
    assert (Hrest : forall ex ey, ~ In (Mouse EVENT_LBUTTONDOWN ex ey) rest).
    { intros ex ey H. apply (Hin ex ey). right. exact H. }
    destruct i as [event ex ey|val|val|key].
    - apply IH; auto;
        unfold callback, edit_label, bind, self, modify, ret, display_label, draw_label;
        (destruct (event =? EVENT_LBUTTONDOWN) eqn:Ed;
         [exfalso; apply (Hin ex ey); left; f_equal; apply Z.eqb_eq, Ed |]);
        destruct (event =? EVENT_LBUTTONUP); simpl; auto;
        destruct (event =? EVENT_MOUSEMOVE); simpl; auto;
        rewrite Hp; simpl; auto.
    - apply IH; auto; unfold callback, on_label_trackbar, bind, modify, draw_label, ret;
        pose proof (get_label_xy_state (set_current_label val s)) as E;
        destruct (get_label_xy _) as [[xy|e] s']; simpl in *; subst; auto.
    - apply IH; auto; unfold callback, on_frame_trackbar, bind, modify, draw_label, ret;
        pose proof (get_label_xy_state (set_current_frame val s)) as E;
        destruct (get_label_xy _) as [[xy|e] s']; simpl in *; subst; auto.
    - assert (Hk : mouse_pressed (snd (key_event key s)) = false
                   /\ changes_made (snd (key_event key s)) = false).
      { unfold key_event, bind, self, modify, ret.
        destruct (key =? 44); [simpl; auto |].
        destruct (key =? 46); [simpl; auto |].
        destruct (key =? 27); simpl; auto. }
      destruct (key_event key s) as [[[|]|e] s1]; simpl in Hk; destruct Hk as [Hp1 Hc1].
      + destruct (Hget s1) as [E|E]; [|congruence].
        destruct (loop_top s1) as [[u|e] s2]; simpl in E; subst; simpl; auto.
      + unfold finish, bind, self, ret. rewrite Hc1. simpl. exact Hc1.
      + exact Hc1. }
  unfold run. destruct (Hget s) as [E|E]; [|congruence].
  destruct (loop_top s) as [[u|e] s1]; simpl in E; subst; simpl; auto.
Qed.

(** C5 as stated fails: the session below is still waiting for input
    and the corrected table has already been written, twice. *)
Lemma primary_file_written_while_running :
  exists s,
    Sample.start Sample.nose [Sample.press 5 5; Sample.release 5 5; Sample.press 6 6]
    = Ok (Waiting s)
    /\ map fst (filter is_h5 (files s)) = ["/data/run1_Fixed.h5"; "/data/run1_Fixed.h5"].
Proof. eexists. compute_conj. Qed.

(** C5, amended. The corrected table is written by [_save_label] itself:
    every save that completes rewrites the whole file, at the path fixed
    by [__init__], with the table as just updated, and sets
    [changes_made]; the end of [run] writes no table file. So wherever a
    run stands, a table file has been written exactly when
    [changes_made] is true, and only at that path. *)
Theorem primary_file_written_by_each_save
        (label_file video_file : string) (table : DataFrame.t)
        (video_frames : Z) (s0 : t) :
  init label_file video_file table video_frames = Ok s0 ->
  (forall s x y s',
      save_label x y s = (Ok tt, s') ->
      files s' = (fixed_label_file s, H5File (label_data s')) :: files s
      /\ changes_made s' = true)
  /\ (forall s, filter is_h5 (files (snd (finish s))) = filter is_h5 (files s))
  /\ (forall inputs,
        existsb is_h5 (files (state_of (run inputs s0)))
        = changes_made (state_of (run inputs s0))
        /\ forall w, In w (files (state_of (run inputs s0))) ->
                     is_h5 w = true -> fst w = fixed_label_file s0).
Proof.
  intros Hinit. split; [|split].
  - intros s x y s' Hs.
    destruct (save_label_cases s x y)
      as [[e E]|[(e & name & df1 & _ & _ & _ & E)|(name & df1 & df2 & _ & _ & _ & E)]];
      rewrite E in Hs; try discriminate.
    injection Hs as <-. simpl. auto.
  - intros s. unfold finish, bind, self, ret.
    destruct (changes_made s); [|reflexivity].
    destruct (save_matlab_file_cases s) as [[e ->]|(path & df_out & _ & ->)];
      reflexivity.
  - intros inputs.
    destruct (files_follow_edits_run _ inputs s0 (files_follow_edits_init _ _ _ _ _ Hinit))
      as (_ & He & _ & Hw).
    auto.
Qed.

Lemma primary_file_written_by_each_save_witness :
  exists s0,
    init "/data/run1.h5" "/data/run1.avi" Sample.nose 3 = Ok s0
    /\ existsb is_h5 (files (state_of (run [Sample.press 5 5; Key 27] s0))) = true
    /\ changes_made (state_of (run [Sample.press 5 5; Key 27] s0)) = true.
Proof.
  eexists. split; [vm_compute; reflexivity |].
  split; [vm_compute; reflexivity |].
  match goal with
  | |- changes_made (state_of (run ?i ?s)) = true =>
      rewrite <- (proj1 (proj2 (proj2
        (primary_file_written_by_each_save "/data/run1.h5" "/data/run1.avi"
           Sample.nose 3 s eq_refl)) i))
  end.
  vm_compute. reflexivity.
Defined.

End SessionFiles.

(** ** Coordinate writes (C6, C7) *)

Section CoordinateWrites.

Import Editor.

(** A cell after a write, in terms of the cells before it. *)
Lemma cell_setitem (df df' : DataFrame.t) (k k' : DataFrame.key) (i j : Z)
      (v : Float64.t) :
  DataFrame.setitem df k i v = Ok df' ->
  DataFrame.cell df' k' j =
    match DataFrame.cell df k' j with
    | Some w => if DataFrame.key_eqb k' k && (j =? i) then Some v else Some w
    | None => None
    end.
Proof.
  intros Hs.
  destruct (DataFrame.key_eqb k' k && (j =? i)) eqn:Eb.
  - apply andb_true_iff in Eb. destruct Eb as [Ek Ej].
    apply key_eqb_eq in Ek. apply Z.eqb_eq in Ej. subst k' j.
    destruct (DataFrame.cell df k i) as [w|] eqn:Ec.
    + eapply cell_setitem_same; eauto.
    + destruct (DataFrame.cell df' k i) as [w|] eqn:Ec'; [|reflexivity].
      destruct (cell_setitem_cases _ _ _ _ _ _ _ _ Hs Ec') as [(_ & _ & _ & w0 & H)|H];
        congruence.
  - rewrite (cell_setitem_other df df' k k' i j v);
      [destruct (DataFrame.cell df k' j); reflexivity | | exact Hs].
    intros [= -> ->]. rewrite key_eqb_refl, Z.eqb_refl in Eb. discriminate.
Qed.

Lemma key_eqb_x_y (a b c d : string) :
  DataFrame.key_eqb (a, b, "x") (c, d, "y") = false
  /\ DataFrame.key_eqb (a, b, "y") (c, d, "x") = false
  /\ DataFrame.key_eqb (a, b, "y") (c, d, "y") = DataFrame.key_eqb (a, b, "x") (c, d, "x").
Proof.
  unfold DataFrame.key_eqb. simpl. rewrite !andb_false_r, !andb_true_r. auto.
Qed.

Lemma missing_together_save_label (x y : Z) (s : t) :
  missing_together (label_data s) ->
  missing_together (label_data (snd (save_label x y s))).
Proof.
  intros H.
  destruct (save_label_cases s x y)
    as [[e ->]|[(e & name & df1 & _ & H1 & Hy & ->)|(name & df1 & df2 & _ & H1 & H2 & ->)]];
    simpl; [exact H | |]; intros subject label frame vx vy.
  - rewrite (cell_setitem _ _ _ (subject, label, "x") _ _ _ H1).
    rewrite (cell_setitem _ _ _ (subject, label, "y") _ _ _ H1).
    destruct (key_eqb_x_y subject label (data_name s) name) as (_ & -> & _).
    rewrite andb_false_l.
    destruct (DataFrame.cell (label_data s) (subject, label, "x") frame) as [wx|] eqn:Ex;
      [|discriminate].
    destruct (DataFrame.cell (label_data s) (subject, label, "y") frame) as [wy|] eqn:Ey;
      [|discriminate].
    destruct (DataFrame.key_eqb (subject, label, "x") (data_name s, name, "x")
              && (frame =? current_frame s)) eqn:Eb.
    + apply andb_true_iff in Eb. destruct Eb as [Ek _]. apply key_eqb_eq in Ek.
      injection Ek as -> ->.
      assert (DataFrame.getitem (label_data s) (data_name s, name, "y") = Raise e) as Hg.
      { rewrite <- Hy. symmetry.
        eapply getitem_setitem_other; [|exact H1]. congruence. }
      unfold DataFrame.cell in Ey. rewrite Hg in Ey. discriminate.
    + intros [= <-] [= <-]. eapply H; eauto.
  - rewrite (cell_setitem _ _ _ (subject, label, "x") _ _ _ H2),
            (cell_setitem _ _ _ (subject, label, "x") _ _ _ H1).
    rewrite (cell_setitem _ _ _ (subject, label, "y") _ _ _ H2),
            (cell_setitem _ _ _ (subject, label, "y") _ _ _ H1).
    destruct (key_eqb_x_y subject label (data_name s) name) as (-> & -> & ->).
    rewrite !andb_false_l.
    destruct (DataFrame.cell (label_data s) (subject, label, "x") frame) as [wx|] eqn:Ex;
      [|discriminate].
    destruct (DataFrame.cell (label_data s) (subject, label, "y") frame) as [wy|] eqn:Ey;
      [|discriminate].
    destruct (DataFrame.key_eqb (subject, label, "x") (data_name s, name, "x")
              && (frame =? current_frame s)) eqn:Eb.
    + intros [= <-] [= <-]. rewrite !of_int_not_nan. reflexivity.
    + intros [= <-] [= <-]. eapply H; eauto.
Qed.

(** C6. Missing-together is kept by everything a session does: if it
    holds of the table a run starts from, it holds of the table wherever
    the run stands, after any inputs. *)
Theorem missing_together_invariant (inputs : list input) (s : t) :
  missing_together (label_data s) ->
  missing_together (label_data (state_of (run inputs s))).
Proof.
  apply (inv_run (fun s => missing_together (label_data s)));
    try (intros; simpl; assumption).
  - intros x y s0. apply missing_together_save_label.
  - intros s0 _ H.
    destruct (save_matlab_file_cases s0) as [[e ->]|(path & df_out & _ & ->)];
      simpl; exact H.
Qed.

Lemma columns_agree_lookup (cx cy : list Float64.t) (n : nat) (vx vy : Float64.t) :
  columns_agree cx cy = true -> cx !! n = Some vx -> cy !! n = Some vy ->
  Float64.isnan vx = Float64.isnan vy.
Proof.
  revert cy n. induction cx as [|a cx IH]; intros [|b cy] [|n]; simpl;
    try discriminate.
  - intros H [= <-] [= <-]. apply andb_true_iff in H. destruct H as [H _].
    apply Bool.eqb_prop, H.
  - intros H. apply andb_true_iff in H. destruct H as [_ H]. apply IH, H.
Qed.

Lemma getitem_in_keys (df : DataFrame.t) (k : DataFrame.key) (col : list Float64.t) :
  DataFrame.getitem df k = Ok col -> In k (DataFrame.keys df).
Proof.
  induction df as [|[k' c] rest IH]; simpl; [discriminate |].
  destruct (DataFrame.key_eqb k' k) eqn:Ek; [|auto].
  apply key_eqb_eq in Ek. auto.
Qed.

Lemma missing_together_check_sound (df : DataFrame.t) :
  missing_together_check df = true -> missing_together df.
Proof.
  intros H subject label frame vx vy Hx Hy.
  unfold missing_together_check in H. rewrite forallb_forall in H.
  unfold DataFrame.cell in Hx, Hy.
  destruct (DataFrame.getitem df (subject, label, "x")) as [cx|] eqn:Ex; [|discriminate].
  destruct (DataFrame.getitem df (subject, label, "y")) as [cy|] eqn:Ey; [|discriminate].
  specialize (H _ (getitem_in_keys _ _ _ Ex)). simpl in H. rewrite Ex, Ey in H.
  destruct (frame <? 0); [discriminate |].
  eapply columns_agree_lookup; eauto.
Qed.

Lemma missing_together_invariant_witness :
  exists s0,
    init "/data/run1.h5" "/data/run1.avi" Sample.nose 3 = Ok s0
    /\ missing_together (label_data s0)
    /\ missing_together
         (label_data (state_of (run [FrameTrackbar 1; Sample.press 15 15; Sample.release 15 15;
                                     Key 46; Key 27] s0))).
Proof.
  eexists. split; [vm_compute; reflexivity |].
  split; [apply missing_together_check_sound; vm_compute; reflexivity |].
  apply missing_together_invariant.
  apply missing_together_check_sound. vm_compute. reflexivity.
Defined.

(** C7. A coordinate write into an existing cell (the label index
    selects a label, the frame is a row of its [x] and [y] columns)
    completes and sets both channels of that cell, to the pointer's
    position; every other cell of the table, so every likelihood and the
    [x] and [y] of every other (frame, label), reads as before, and the
    columns stay the same. *)
Theorem save_label_writes_one_cell (s : t) (x y : Z) (name : string)
        (vx vy : Float64.t) :
  Py.array_get (label_names s) (current_label s) = Ok name ->
  DataFrame.cell (label_data s) (data_name s, name, "x") (current_frame s) = Some vx ->
  DataFrame.cell (label_data s) (data_name s, name, "y") (current_frame s) = Some vy ->
  exists s',
    save_label x y s = (Ok tt, s')
    /\ DataFrame.cell (label_data s') (data_name s, name, "x") (current_frame s)
       = Some (Float64.of_int x)
    /\ DataFrame.cell (label_data s') (data_name s, name, "y") (current_frame s)
       = Some (Float64.of_int y)
    /\ (forall subject label frame,
           DataFrame.cell (label_data s') (subject, label, "likelihood") frame
           = DataFrame.cell (label_data s) (subject, label, "likelihood") frame)
    /\ (forall k frame,
           (k, frame) <> ((data_name s, name, "x"), current_frame s) ->
           (k, frame) <> ((data_name s, name, "y"), current_frame s) ->
           DataFrame.cell (label_data s') k frame = DataFrame.cell (label_data s) k frame)
    /\ DataFrame.keys (label_data s') = DataFrame.keys (label_data s).
Proof.
  intros Hn Hx Hy.
  assert (Hother : forall df df' k k' i j v,
             DataFrame.setitem df k i v = Ok df' -> (k', j) <> (k, i) ->
             DataFrame.cell df' k' j = DataFrame.cell df k' j).
  { intros. eapply cell_setitem_other; eauto. }
  assert (exists df1, DataFrame.setitem (label_data s) (data_name s, name, "x")
                        (current_frame s) (Float64.of_int x) = Ok df1) as [df1 H1].
  { unfold DataFrame.cell in Hx.
    destruct (DataFrame.getitem (label_data s) (data_name s, name, "x")) as [cx|] eqn:Ex;
      [|discriminate].
    eapply setitem_ok, Ex. }
  assert (exists df2, DataFrame.setitem df1 (data_name s, name, "y")
                        (current_frame s) (Float64.of_int y) = Ok df2) as [df2 H2].
  { unfold DataFrame.cell in Hy.
    destruct (DataFrame.getitem (label_data s) (data_name s, name, "y")) as [cy|] eqn:Ey;
      [|discriminate].
    eapply setitem_ok. erewrite getitem_setitem_other; [exact Ey | | exact H1].
    congruence. }
  assert (E : save_label x y s =
              (Ok tt, set_changes_made true
                        (write_file (fixed_label_file s) (H5File df2)
                           (set_label_data df2 s)))).
  { unfold save_label, bind, lift, self, modify. rewrite Hn, H1. simpl.
    rewrite Hn, H2. reflexivity. }
  exists (set_changes_made true
            (write_file (fixed_label_file s) (H5File df2) (set_label_data df2 s))).
    split; [exact E |]. simpl.
    split; [|split; [|split; [|split]]].
    + rewrite (Hother _ _ _ _ _ _ _ H2) by congruence.
      eapply cell_setitem_same; eauto.
    + eapply cell_setitem_same; eauto.
      rewrite (Hother _ _ _ _ _ _ _ H1) by congruence. exact Hy.
    + intros subject label frame.
      rewrite (Hother _ _ _ _ _ _ _ H2) by congruence.
      apply (Hother _ _ _ _ _ _ _ H1). congruence.
    + intros k frame Hkx Hky.
      rewrite (Hother _ _ _ _ _ _ _ H2) by exact Hky.
      apply (Hother _ _ _ _ _ _ _ H1). exact Hkx.
    + rewrite (setitem_keys _ _ _ _ _ H2). apply (setitem_keys _ _ _ _ _ H1).
Qed.

Lemma save_label_writes_one_cell_witness :
  exists s0,
    init "/data/run1.h5" "/data/run1.avi" Sample.nose 3 = Ok s0
    /\ exists s',
        save_label 15 16 s0 = (Ok tt, s')
        /\ DataFrame.cell (label_data s') ("dlc", "nose", "x") 0 = Some (Float64.of_int 15)
        /\ DataFrame.cell (label_data s') ("dlc", "nose", "y") 0 = Some (Float64.of_int 16)
        /\ DataFrame.cell (label_data s') ("dlc", "nose", "x") 2 = Some (Float64.of_int 30).
Proof.
  eexists. split; [vm_compute; reflexivity |].
  match goal with
  | |- exists s', save_label _ _ ?s = _ /\ _ =>
      edestruct (save_label_writes_one_cell s 15 16 "nose")
        as (s' & E & Hx & Hy & _ & Hother & _);
      [vm_compute; reflexivity | vm_compute; reflexivity | vm_compute; reflexivity |]
  end.
  exists s'. split; [exact E |]. split; [exact Hx |]. split; [exact Hy |].
  rewrite Hother; [vm_compute; reflexivity | discriminate | discriminate].
Defined.

End CoordinateWrites.

(** ** The cursors (C2) *)

Section Cursors.

Import Editor.








(** X7. The frame cursor stays inside the frame range, from 0 to
    [frame_count], through a whole run, as long as the window reports
    frame trackbar values inside that range. *)
Lemma frame_cursor_in_range (inputs : list input) (s : t) :
  Forall (deliverable s) inputs ->
  0 <= current_frame s <= frame_count s ->
  0 <= current_frame (state_of (run inputs s)) <= frame_count s.
Proof.
  intros Hin H.
  set (P := fun s1 : t => frame_count s1 = frame_count s
                          /\ 0 <= current_frame s1 <= frame_count s).
  assert (Hsave : forall x y s1, P s1 -> P (snd (save_label x y s1))).
  { intros x y s1 HP.
    destruct (save_label_cases s1 x y)
      as [[e ->]|[(e & name & df1 & _ & _ & _ & ->)|(name & df1 & df2 & _ & _ & _ & ->)]];
      simpl; exact HP. }
  assert (Hget : forall s1, snd (get_label_xy s1) = s1) by apply get_label_xy_state.
  assert (Htop : forall s1, P s1 -> P (snd (loop_top s1))).
  { intros s1 HP. unfold loop_top, bind, self, draw_label, ret.
    destruct (mouse_pressed s1).
    - pose proof (Hsave (mx s1) (my s1) s1 HP) as Hs.
      destruct (save_label _ _ _) as [[u|e] s']; simpl in *; auto.
    - pose proof (Hget s1) as E.
      destruct (get_label_xy s1) as [[xy|e] s']; simpl in *; subst; auto. }
  assert (Hwait : forall s1, P s1 -> P (state_of (wait_key inputs s1))).
  { clear H. induction Hin as [|i rest Hi Hrest IH]; intros s1 HP; simpl; [exact HP |].
    destruct i as [event ex ey|val|val|key].
    - apply IH. unfold callback, edit_label, bind, self, modify, ret, display_label, draw_label.
      destruct (event =? EVENT_LBUTTONDOWN).
      + pose proof (Hsave (mx (set_mouse ex ey s1)) (my (set_mouse ex ey s1))
                      (set_mouse ex ey s1) HP) as Hs.
        destruct (save_label _ _ _) as [[u|e] s']; simpl in *; auto.
      + destruct (event =? EVENT_LBUTTONUP); [exact HP |].
        destruct (event =? EVENT_MOUSEMOVE); [|exact HP].
        destruct (mouse_pressed s1); exact HP.
    - apply IH. unfold callback, on_label_trackbar, bind, modify, draw_label, ret.
      pose proof (Hget (set_current_label val s1)) as E.
      destruct (get_label_xy _) as [[xy|e] s']; simpl in *; subst; exact HP.
    - apply IH. unfold callback, on_frame_trackbar, bind, modify, draw_label, ret.
      pose proof (Hget (set_current_frame val s1)) as E.
      destruct (get_label_xy _) as [[xy|e] s']; simpl in *; subst;
        destruct HP as [HP1 HP2]; split; simpl; auto.
    - assert (Hk : P (snd (key_event key s1))).
      { destruct HP as [HP1 HP2]. unfold key_event, bind, self, modify, ret.
        destruct (key =? 44); [split; simpl; [auto | lia] |].
        destruct (key =? 46); [split; simpl; [auto | lia] |].
        destruct (key =? 27); split; simpl; auto. }
      destruct (key_event key s1) as [[[|]|e] s2]; simpl in Hk.
      + pose proof (Htop s2 Hk) as Hl.
        destruct (loop_top s2) as [[u|e] s3]; simpl in *; auto.
      + unfold finish, bind, self, ret.
        destruct (changes_made s2); [|exact Hk].
        destruct (save_matlab_file_cases s2) as [[e ->]|(path & df_out & _ & ->)];
          exact Hk.
      + exact Hk. }
  assert (HP0 : P s) by (split; auto).
  unfold run. pose proof (Htop s HP0) as Hl.
  destruct (loop_top s) as [[u|e] s1]; simpl in *; [apply Hwait, Hl | apply Hl].
Qed.

End Cursors.

(** ** Reading the coordinate (C3) and dragging (C1) *)

Section ReadAndDrag.

Import Editor.

(** What [_get_label_xy] returns for a cell with both channels:
    [(nan, nan)] when [x] is NaN, whatever [y] is; otherwise the two
    stored values rounded to integers, or the exception of the first
    conversion that fails. The fields are never changed. *)
Lemma get_label_xy_value (s : t) (name : string) (vx vy : Float64.t) :
  Py.array_get (label_names s) (current_label s) = Ok name ->
  DataFrame.cell (label_data s) (data_name s, name, "x") (current_frame s) = Some vx ->
  DataFrame.cell (label_data s) (data_name s, name, "y") (current_frame s) = Some vy ->
  get_label_xy s =
    (if Float64.isnan vx then Ok (CNan, CNan)
     else match Float64.int_round vx, Float64.int_round vy with
          | Ok zx, Ok zy => Ok (CInt zx, CInt zy)
          | Raise e, _ => Raise e
          | Ok _, Raise e => Raise e
          end, s).
Proof.
  intros Hn Hx Hy. unfold get_label_xy, bind, lift, self, ret. rewrite Hn.
  unfold DataFrame.cell in Hx, Hy. unfold DataFrame.series_get.
  destruct (DataFrame.getitem (label_data s) (data_name s, name, "x")) as [cx|];
    [|discriminate].
  destruct (DataFrame.getitem (label_data s) (data_name s, name, "y")) as [cy|];
    [|discriminate].
  destruct (current_frame s <? 0); [discriminate |].
  rewrite Hx, Hy.
  destruct (Float64.isnan vx); simpl; [reflexivity |].
  destruct (Float64.int_round vx); [|reflexivity].
  destruct (Float64.int_round vy); reflexivity.
Qed.

(** Rounding is to the nearest integer, halves to the even one: the cell
    of [nose] at frame 0 holds (2.5, 3.5) and reads as (2, 4). *)
Example get_label_xy_rounds_half_to_even :
  exists s0,
    init "/data/run1.h5" "/data/run1.avi" Sample.ragged 3 = Ok s0
    /\ DataFrame.cell (label_data s0) ("dlc", "nose", "x") 0 = Some (Sample.halves 5)
    /\ DataFrame.cell (label_data s0) ("dlc", "nose", "y") 0 = Some (Sample.halves 7)
    /\ get_label_xy s0 = (Ok (CInt 2, CInt 4), s0).
Proof. eexists. compute_conj. Qed.

(** C3, evaluated. In the table [Sample.ragged] the label [tail] has, at
    frame 1, an [x] of 1 and a NaN [y]: reading that cell raises
    [ValueError], because the guard of the [y] conversion tests [x_f];
    the session that steps onto the cell ends with that exception. The
    opposite cell (frame 2: NaN [x], a [y] of 2) reads as [(nan, nan)]. *)
Theorem get_label_xy_raises_on_half_missing_cell :
  exists s0,
    init "/data/run1.h5" "/data/run1.avi" Sample.ragged 3 = Ok s0
    /\ label_names s0 = ["nose"; "tail"]
    /\ DataFrame.cell (label_data s0) ("dlc", "tail", "x") 1 = Some (Float64.of_int 1)
    /\ DataFrame.cell (label_data s0) ("dlc", "tail", "y") 1 = Some Float64.nan
    /\ get_label_xy (set_current_frame 1 (set_current_label 1 s0))
       = (Raise ValueError, set_current_frame 1 (set_current_label 1 s0))
    /\ get_label_xy (set_current_frame 2 (set_current_label 1 s0))
       = (Ok (CNan, CNan), set_current_frame 2 (set_current_label 1 s0))
    /\ run [LabelTrackbar 1; Key 46] s0
       = Crashed ValueError (set_current_frame 1 (set_current_label 1 s0)).
Proof. eexists. compute_conj. Qed.

(** A pointer movement changes the remembered position only: the table,
    the files and the flag are as before it. *)
Lemma mouse_move_writes_nothing (s : t) (ex ey : Z) :
  label_data (callback (edit_label EVENT_MOUSEMOVE ex ey) s) = label_data s
  /\ files (callback (edit_label EVENT_MOUSEMOVE ex ey) s) = files s
  /\ changes_made (callback (edit_label EVENT_MOUSEMOVE ex ey) s) = changes_made s.
Proof.
  unfold callback, edit_label.
  change (EVENT_MOUSEMOVE =? EVENT_LBUTTONDOWN) with false.
  change (EVENT_MOUSEMOVE =? EVENT_LBUTTONUP) with false.
  change (EVENT_MOUSEMOVE =? EVENT_MOUSEMOVE) with true.
  unfold bind, self, modify, ret, display_label, draw_label.
  cbv beta iota. destruct (mouse_pressed s); repeat split; reflexivity.
Qed.

(** C1, evaluated. Press at (5,5), drag to (6,6) and (7,7), release,
    all while [waitKey(0)] blocks, then Esc: the cell of the active
    label and frame holds (5,5), the position of the press, although
    the last pointer position is (7,7); [changes_made] is true. *)
Theorem drag_positions_not_saved :
  exists s,
    Sample.start Sample.nose
      [Sample.press 5 5; Sample.move 6 6; Sample.move 7 7; Sample.release 7 7; Key 27]
    = Ok (Exited s)
    /\ DataFrame.cell (label_data s) ("dlc", "nose", "x") 0 = Some (Float64.of_int 5)
    /\ DataFrame.cell (label_data s) ("dlc", "nose", "y") 0 = Some (Float64.of_int 5)
    /\ (mx s, my s) = (7, 7)
    /\ (current_label s, current_frame s) = (0, 0)
    /\ changes_made s = true.
Proof. eexists. compute_conj. Qed.

End ReadAndDrag.

(** ** The MAT export (C8, C10) *)

Section MatExport.

Import Editor.

(** The loop over the labels: when every label has its three columns,
    the dictionary maps each of them to its columns and is otherwise as
    it was. *)
Lemma mat_entries_lookup (df : DataFrame.t) (subject : string)
      (labels : list string) :
  forall acc : gmap string mat_entry,
    (forall l, l ∈ labels -> is_Some (column_entry df subject l)) ->
    exists m,
      mat_entries df subject labels acc = Ok m
      /\ forall l, m !! l = if decide (l ∈ labels) then column_entry df subject l
                            else acc !! l.
Proof.
  induction labels as [|label rest IH]; intros acc Hcols; simpl.
  - exists acc. split; [reflexivity |]. intros l.
    destruct (decide (l ∈ [])) as [Hin|_]; [inversion Hin | reflexivity].
  - destruct (Hcols label) as [e He]; [left |].
    unfold column_entry in He.
    destruct (DataFrame.getitem df (subject, label, "x")) as [cx|] eqn:Ex; [|discriminate].
    destruct (DataFrame.getitem df (subject, label, "y")) as [cy|] eqn:Ey; [|discriminate].
    destruct (DataFrame.getitem df (subject, label, "likelihood")) as [cl|] eqn:El;
      [|discriminate].
    destruct (IH (<[label := MatEntry cx cy cl]> acc)) as [m [Hm Hl]].
    { intros l Hin. apply Hcols. right. exact Hin. }
    exists m. split; [exact Hm |]. intros l. rewrite Hl.
    destruct (decide (l ∈ rest)) as [Hin|Hnin].
    + rewrite decide_True by (right; exact Hin). reflexivity.
    + destruct (decide (l = label)) as [->|Hne].
      * rewrite decide_True by left. rewrite lookup_insert_eq.
        unfold column_entry. rewrite Ex, Ey, El. reflexivity.
      * rewrite lookup_insert_ne by congruence.
        rewrite decide_False; [reflexivity |].
        intros Hin. apply elem_of_cons in Hin. destruct Hin; contradiction.
Qed.

Lemma cell_of_column (df : DataFrame.t) (k : DataFrame.key)
      (col : list Float64.t) (frame : nat) :
  DataFrame.getitem df k = Ok col ->
  DataFrame.cell df k (Z.of_nat frame) = col !! frame.
Proof.
  intros H. unfold DataFrame.cell. rewrite H.
  destruct (Z.ltb_spec (Z.of_nat frame) 0); [lia |]. rewrite Nat2Z.id. reflexivity.
Qed.

(** C8. When every label of the editor has its three columns, of [N]
    rows each, the MAT export succeeds and writes one dictionary, which
    has an entry for every label and for nothing else; the entry of a
    label holds exactly [x], [y] and [likelihood], each of length [N]
    and each equal, frame by frame in ascending order, to the cells of
    the table in memory. Any editor with the same table in memory
    exports the same dictionary to the same path, whatever files were
    written before. *)
Theorem secondary_export_shape (s : t) (N : nat) :
  (forall l ch, l ∈ label_names s -> ch ∈ ["x"; "y"; "likelihood"] ->
                exists col, DataFrame.getitem (label_data s) (data_name s, l, ch) = Ok col
                            /\ length col = N) ->
  exists path df_out,
    save_matlab_file s = (Ok path, write_file path (MatFile df_out) s)
    /\ (forall l, l ∈ label_names s ->
          exists e, df_out !! l = Some e
            /\ length (mat_x e) = N /\ length (mat_y e) = N
            /\ length (mat_likelihood e) = N
            /\ forall frame : nat,
                 mat_x e !! frame
                 = DataFrame.cell (label_data s) (data_name s, l, "x") (Z.of_nat frame)
                 /\ mat_y e !! frame
                    = DataFrame.cell (label_data s) (data_name s, l, "y") (Z.of_nat frame)
                 /\ mat_likelihood e !! frame
                    = DataFrame.cell (label_data s) (data_name s, l, "likelihood")
                        (Z.of_nat frame))
    /\ (forall l, l ∉ label_names s -> df_out !! l = None)
    /\ (forall s2, label_file s2 = label_file s -> label_data s2 = label_data s ->
                   data_name s2 = data_name s -> label_names s2 = label_names s ->
                   save_matlab_file s2 = (Ok path, write_file path (MatFile df_out) s2)).
Proof.
  intros Hcols.
  assert (Hx : forall l, l ∈ label_names s ->
                 exists cx cy cl,
                   DataFrame.getitem (label_data s) (data_name s, l, "x") = Ok cx
                   /\ DataFrame.getitem (label_data s) (data_name s, l, "y") = Ok cy
                   /\ DataFrame.getitem (label_data s) (data_name s, l, "likelihood") = Ok cl
                   /\ length cx = N /\ length cy = N /\ length cl = N).
  { intros l Hl.
    destruct (Hcols l "x" Hl) as (cx & Ex & Lx); [set_solver |].
    destruct (Hcols l "y" Hl) as (cy & Ey & Ly); [set_solver |].
    destruct (Hcols l "likelihood" Hl) as (cl & El & Ll); [set_solver |].
    exists cx, cy, cl. auto 10. }
  destruct (mat_entries_lookup (label_data s) (data_name s) (label_names s) ∅)
    as [df_out [Hm Hl]].
  { intros l Hin. destruct (Hx l Hin) as (cx & cy & cl & Ex & Ey & El & _).
    unfold column_entry. rewrite Ex, Ey, El. eauto. }
  eexists. exists df_out.
  split; [unfold save_matlab_file, bind, lift, self, modify, ret; rewrite Hm; reflexivity |].
  split; [|split].
  - intros l Hin. destruct (Hx l Hin) as (cx & cy & cl & Ex & Ey & El & Lx & Ly & Ll).
    exists (MatEntry cx cy cl). split.
    + rewrite Hl, decide_True by exact Hin. unfold column_entry.
      rewrite Ex, Ey, El. reflexivity.
    + simpl. repeat split; auto; symmetry; apply cell_of_column; assumption.
  - intros l Hnin. rewrite Hl, decide_False by exact Hnin. apply lookup_empty.
  - intros s2 E1 E2 E3 E4.
    unfold save_matlab_file, bind, lift, self, modify, ret.
    rewrite E1, E2, E3, E4, Hm. reflexivity.
Qed.

Lemma secondary_export_shape_witness :
  exists s0,
    init "/data/run1.h5" "/data/run1.avi" Sample.nose 3 = Ok s0
    /\ exists path df_out,
        save_matlab_file s0 = (Ok path, write_file path (MatFile df_out) s0)
        /\ exists e, df_out !! "nose" = Some e
                     /\ length (mat_x e) = 3%nat
                     /\ mat_x e !! 2%nat
                        = DataFrame.cell (label_data s0) ("dlc", "nose", "x") 2.
Proof.
  eexists. split; [vm_compute; reflexivity |].
  match goal with
  | |- exists path df_out, save_matlab_file ?s = _ /\ _ =>
      destruct (secondary_export_shape s 3) as (path & df_out & E & Hl & _)
  end.
  - intros l ch Hl Hch. apply list_elem_of_singleton in Hl. subst l.
    repeat (apply elem_of_cons in Hch; destruct Hch as [->|Hch]);
      [| | |inversion Hch]; eexists; split; vm_compute; reflexivity.
  - exists path, df_out. split; [exact E |].
    destruct (Hl "nose") as (e & He & Lx & _ & _ & Hc); [apply list_elem_of_here |].
    exists e. split; [exact He |]. split; [exact Lx |]. apply (Hc 2%nat).
Defined.

(** The editor's loop and the converter's loop build the same
    dictionary from the same table, subject and labels. *)
Lemma mat_entries_agree (c : MatConverter.t) (labels : list string) :
  forall acc,
    mat_entries (MatConverter.label_data c) (MatConverter.data_name c) labels acc
    = MatConverter.mat_entries c labels acc.
Proof.
  induction labels as [|label rest IH]; intros acc; simpl; [reflexivity |].
  destruct (DataFrame.getitem _ (_, label, "x")); [|reflexivity].
  destruct (DataFrame.getitem _ (_, label, "y")); [|reflexivity].
  destruct (DataFrame.getitem _ (_, label, "likelihood")); [|reflexivity].
  apply IH.
Qed.

Lemma same_schema_run (inputs : list input) (s0 : t) :
  same_schema s0 (state_of (run inputs s0)).
Proof.
  apply (inv_run (same_schema s0)); unfold same_schema;
    try (intros; simpl; assumption); [| |auto].
  - intros x y s (H1 & H2 & H3 & H4).
    destruct (save_label_cases s x y)
      as [[e ->]|[(e & name & df1 & _ & E1 & _ & ->)|(name & df1 & df2 & _ & E1 & E2 & ->)]];
      simpl; auto.
    + rewrite (setitem_keys _ _ _ _ _ E1). auto.
    + rewrite (setitem_keys _ _ _ _ _ E2), (setitem_keys _ _ _ _ _ E1). auto.
  - intros s _ H.
    destruct (save_matlab_file_cases s) as [[e ->]|(path & df_out & _ & ->)];
      simpl; exact H.
Qed.

(** C10. Wherever a session of the editor stands, its table in memory
    loads in the converter (under the same file name), and the editor's
    MAT export and the converter's agree: the same returned path or the
    same exception, and the same file written (path and dictionary) or
    none. *)
Theorem export_agrees_with_converter
        (label_file video_file : string) (table : DataFrame.t)
        (video_frames : Z) (s0 : t) (inputs : list input) :
  init label_file video_file table video_frames = Ok s0 ->
  exists c,
    MatConverter.init label_file (label_data (state_of (run inputs s0))) = Ok c
    /\ fst (save_matlab_file (state_of (run inputs s0)))
       = fst (MatConverter.save_matlab_file c)
    /\ exists new : write_log,
        files (snd (save_matlab_file (state_of (run inputs s0))))
        = (new ++ files (state_of (run inputs s0)))%list
        /\ MatConverter.files (snd (MatConverter.save_matlab_file c))
           = (new ++ MatConverter.files c)%list.
Proof.
  intros Hinit.
  destruct (same_schema_run inputs s0) as (H1 & H2 & H3 & H4).
  set (s := state_of (run inputs s0)) in *.
  revert Hinit. unfold init, MatConverter.init.
  destruct (output_path label_file) as [fixed|]; [|discriminate].
  destruct (Py.first (DataFrame.keys table)) as [k0|] eqn:Ek; [|discriminate].
  intros [= <-]. simpl in H1, H2, H3, H4.
  rewrite H4, Ek. eexists. split; [reflexivity |].
  unfold save_matlab_file, MatConverter.save_matlab_file, bind, lift, self, modify, ret.
  cbn [MatConverter.label_file MatConverter.label_data MatConverter.data_name
       MatConverter.label_names MatConverter.files].
  rewrite <- mat_entries_agree.
  cbn [MatConverter.label_data MatConverter.data_name].
  rewrite H1, H2, H3.
  destruct (mat_entries (label_data s) _ _ ∅) as [df_out|e]; simpl.
  - split; [reflexivity |]. eexists [_]. split; reflexivity.
  - split; [reflexivity |]. exists []. split; reflexivity.
Qed.

Lemma export_agrees_with_converter_witness :
  exists s0 c,
    init "/data/run1.h5" "/data/run1.avi" Sample.nose 3 = Ok s0
    /\ MatConverter.init "/data/run1.h5"
         (label_data (state_of (run [Sample.press 15 15; Sample.release 15 15; Key 27] s0))) = Ok c
    /\ fst (save_matlab_file (state_of (run [Sample.press 15 15; Sample.release 15 15; Key 27] s0)))
       = fst (MatConverter.save_matlab_file c).
Proof.
  eexists.
  match goal with
  | |- exists c, init ?lf ?vf ?tb ?n = Ok ?s
                 /\ MatConverter.init _ (label_data (state_of (run ?i _))) = _ /\ _ =>
      assert (E : init lf vf tb n = Ok s) by (vm_compute; reflexivity);
      destruct (export_agrees_with_converter lf vf tb n s i E) as (c & Hc & Hp & _)
  end.
  exists c. split; [vm_compute; reflexivity |]. split; [exact Hc | exact Hp].
Defined.

End MatExport.

(** ** The path of the corrected table (C9) *)

Section OutputPath.

Lemma starts_with_app (p s : list ascii) :
  Py.starts_with p s = true <-> exists q, s = (p ++ q)%list.
Proof.
  revert s. induction p as [|a p IH]; intros s; simpl.
  - split; eauto.
  - destruct s as [|b s].
    + split; [discriminate | intros [q Hq]; discriminate].
    + rewrite andb_true_iff, Ascii.eqb_eq, IH. split.
      * intros [-> [q ->]]. eauto.
      * intros [q [= -> ->]]. eauto.
Qed.

(** Without an occurrence of the separator there is one piece. *)
Lemma split_go_no_occurrence (sep : list ascii) (s : list ascii) :
  forall piece,
    (forall a b, s <> (a ++ sep ++ b)%list) ->
    Py.split_go sep 0 piece s = [(rev piece ++ s)%list].
Proof.
  induction s as [|c s IH]; intros piece Hno; simpl.
  - rewrite app_nil_r. reflexivity.
  - destruct (Py.starts_with sep (c :: s)) eqn:E.
    + apply starts_with_app in E. destruct E as [q Hq].
      exfalso. apply (Hno [] q). exact Hq.
    + rewrite IH.
      * simpl. rewrite <- app_assoc. reflexivity.
      * intros a b Hab. apply (Hno (c :: a) b). rewrite Hab. reflexivity.
Qed.

(** The characters of a matched separator are skipped. *)
Lemma split_go_skip (sep a b piece : list ascii) :
  Py.split_go sep (length a) piece (a ++ b) = Py.split_go sep 0 piece b.
Proof.
  induction a as [|c a IH]; simpl; [reflexivity | exact IH].
Qed.

(** When the separator occurs at the front at most, [split] cuts there
    or not at all. *)
Lemma split_front_only (sep s : list ascii) :
  sep <> [] ->
  (forall a b, s = (a ++ sep ++ b)%list -> a = []) ->
  Py.split sep s
  = if Py.starts_with sep s then [[]; skipn (length sep) s] else [s].
Proof.
  intros Hsep Hfront. unfold Py.split.
  destruct (Py.starts_with sep s) eqn:E.
  - destruct (proj1 (starts_with_app sep s) E) as [q ->].
    destruct sep as [|c sep']; [contradiction |].
    change (Py.split_go (c :: sep') 0 [] ((c :: sep') ++ q))
      with (if Py.starts_with (c :: sep') ((c :: sep') ++ q)
            then [] :: Py.split_go (c :: sep') (length sep') [] (sep' ++ q)
            else Py.split_go (c :: sep') 0 [c] (sep' ++ q)).
    rewrite E, split_go_skip, split_go_no_occurrence.
    + rewrite skipn_app, skipn_all, Nat.sub_diag. reflexivity.
    + intros a b Hab.
      specialize (Hfront ((c :: sep') ++ a)%list b).
      rewrite Hab, <- app_assoc in Hfront. specialize (Hfront eq_refl). discriminate.
  - apply (split_go_no_occurrence sep s []).
    intros a b Hab. pose proof (Hfront a b Hab) as ->.
    rewrite Hab in E.
    assert (Py.starts_with sep (sep ++ b) = true) by (apply starts_with_app; eauto).
    simpl in E. congruence.
Qed.

Lemma list_ascii_of_string_app (a b : string) :
  list_ascii_of_string (a ++ b)%string
  = (list_ascii_of_string a ++ list_ascii_of_string b)%list.
Proof. induction a as [|c a IH]; simpl; [reflexivity | rewrite IH; reflexivity]. Qed.

Lemma string_of_list_ascii_app (a b : list ascii) :
  string_of_list_ascii (a ++ b)
  = (string_of_list_ascii a ++ string_of_list_ascii b)%string.
Proof. induction a as [|c a IH]; simpl; [reflexivity | rewrite IH; reflexivity]. Qed.

Lemma length_list_ascii_of_string (s : string) :
  length (list_ascii_of_string s) = String.length s.
Proof. induction s as [|c s IH]; simpl; [reflexivity | rewrite IH; reflexivity]. Qed.

Lemma take_firstn (n : nat) (s : string) :
  Py.take n s = string_of_list_ascii (firstn n (list_ascii_of_string s)).
Proof.
  revert s. induction n as [|n IH]; intros [|c s]; simpl; try reflexivity.
  rewrite IH. reflexivity.
Qed.

(** [s.rsplit(sep)[0]] removes a trailing [sep], when [sep] occurs in
    [s] at the end or not at all. *)
Lemma rsplit_first_trailing_only (sep s : string) :
  sep <> EmptyString ->
  (forall p q, s = (p ++ sep ++ q)%string -> q = EmptyString) ->
  Py.first (Py.rsplit sep s) = Ok (Spec.remove_suffix sep s).
Proof.
  intros Hsep Htrail. unfold Py.rsplit, Spec.remove_suffix, Spec.ends_with.
  set (l := list_ascii_of_string s). set (ls := list_ascii_of_string sep).
  rewrite (split_front_only (rev ls) (rev l)).
  - destruct (Py.starts_with (rev ls) (rev l)) eqn:E; simpl.
    + f_equal. rewrite take_firstn. fold l. f_equal.
      apply starts_with_app in E. destruct E as [q Hq].
      rewrite length_rev, <- !length_list_ascii_of_string. fold l ls.
      assert (Hl : l = (rev q ++ ls)%list).
      { rewrite <- (rev_involutive l), Hq, rev_app_distr, rev_involutive. reflexivity. }
      rewrite Hq, skipn_app, skipn_all2, length_rev, Nat.sub_diag by (rewrite length_rev; lia).
      simpl. rewrite drop_0, Hl, length_app.
      replace (length (rev q) + length ls - length ls)%nat with (length (rev q)) by lia.
      rewrite take_app_length. reflexivity.
    + rewrite rev_involutive. unfold l. rewrite string_of_list_ascii_of_string.
      reflexivity.
  - intros H. apply (f_equal (@rev ascii)) in H. rewrite rev_involutive in H.
    apply Hsep. rewrite <- (string_of_list_ascii_of_string sep). fold ls.
    rewrite H. reflexivity.
  - intros a b Hab.
    assert (Hl : l = (rev b ++ ls ++ rev a)%list).
    { rewrite <- (rev_involutive l), Hab, !rev_app_distr, rev_involutive, <- app_assoc.
      reflexivity. }
    specialize (Htrail (string_of_list_ascii (rev b)) (string_of_list_ascii (rev a))).
    rewrite <- (string_of_list_ascii_of_string sep) in Htrail at 1. fold ls in Htrail.
    rewrite <- !string_of_list_ascii_app, <- Hl in Htrail.
    unfold l in Htrail. rewrite string_of_list_ascii_of_string in Htrail.
    specialize (Htrail eq_refl).
    apply (f_equal list_ascii_of_string) in Htrail.
    rewrite list_ascii_of_string_of_list_ascii in Htrail. simpl in Htrail.
    apply (f_equal (@rev ascii)) in Htrail. rewrite rev_involutive in Htrail. exact Htrail.
Qed.

Lemma trailing_only_sound (sep s : string) :
  trailing_only (list_ascii_of_string sep) (list_ascii_of_string s) = true ->
  forall p q, s = (p ++ sep ++ q)%string -> q = EmptyString.
Proof.
  intros H p q ->. rewrite !list_ascii_of_string_app in H.
  revert H. generalize (list_ascii_of_string sep) as ls. intros ls.
  induction p as [|c p IH]; simpl.
  - intros H. destruct q as [|d q]; [reflexivity | exfalso].
    destruct ls as [|a ls]; [simpl in H; discriminate |].
    cbn [trailing_only app list_ascii_of_string] in H.
    apply andb_true_iff in H. destruct H as [H _].
    assert (E : Py.starts_with (a :: ls) (a :: ls ++ d :: list_ascii_of_string q) = true).
    { apply starts_with_app. eexists. reflexivity. }
    rewrite E in H. apply Nat.eqb_eq in H. simpl in H. rewrite length_app in H.
    simpl in H. lia.
  - intros H. apply andb_true_iff in H. destruct H as [_ H]. apply IH, H.
Qed.

(** C9 as stated fails, in two ways: the extension written is always
    [.h5], whatever the input's is, and the base name is cut at the first
    "_Fixed", not only at a trailing one. *)
Lemma output_path_differs_from_spec :
  Editor.output_path "/data/run1.H5" = Ok "/data/run1_Fixed.h5"
  /\ Spec.primary_output_path "/data/run1.H5" = "/data/run1_Fixed.H5"
  /\ Editor.output_path "/data/run_Fixed_v2.h5" = Ok "/data/run_Fixed.h5"
  /\ Spec.primary_output_path "/data/run_Fixed_v2.h5" = "/data/run_Fixed_v2_Fixed.h5".
Proof. compute_conj. Qed.

(** C9, amended. For an input whose base name (extension removed) has
    "_Fixed" at its end or nowhere, the path of the corrected table is
    the input's directory joined with the base name, a trailing "_Fixed"
    removed, followed by "_Fixed.h5": the extension is always [.h5]. It
    is the path the specification words when the input's extension is
    [.h5] too. *)
Theorem corrected_table_path (label_file : string) :
  let base := fst (Py.splitext (Py.basename (Py.normpath label_file))) in
  let ext := snd (Py.splitext (Py.basename (Py.normpath label_file))) in
  (forall p q, base = (p ++ "_Fixed" ++ q)%string -> q = EmptyString) ->
  Editor.output_path label_file
  = Ok (Py.normpath (Py.join (Py.dirname (Py.normpath label_file))
                       (Spec.remove_suffix "_Fixed" base ++ "_Fixed.h5")%string))
  /\ (ext = ".h5" ->
      Editor.output_path label_file = Ok (Spec.primary_output_path label_file)).
Proof.
  intros base ext Htrail.
  assert (E : Editor.output_path label_file
              = Ok (Py.normpath (Py.join (Py.dirname (Py.normpath label_file))
                                   (Spec.remove_suffix "_Fixed" base ++ "_Fixed.h5")%string))).
  { unfold Editor.output_path. fold base.
    rewrite (rsplit_first_trailing_only "_Fixed" base);
      [reflexivity | discriminate | exact Htrail]. }
  split; [exact E |].
  intros Hext. rewrite E. unfold Spec.primary_output_path. fold base ext.
  rewrite Hext. reflexivity.
Qed.

Lemma corrected_table_path_witness :
  Editor.output_path "/data/../data/run1_Fixed.h5"
  = Ok (Spec.primary_output_path "/data/../data/run1_Fixed.h5")
  /\ Spec.primary_output_path "/data/../data/run1_Fixed.h5" = "/data/run1_Fixed.h5".
Proof.
  split; [|vm_compute; reflexivity].
  apply (corrected_table_path "/data/../data/run1_Fixed.h5").
  - apply (trailing_only_sound "_Fixed"). vm_compute. reflexivity.
  - vm_compute. reflexivity.
Defined.

(** [__init__] stores that path. *)
Lemma init_fixed_label_file (label_file video_file : string)
      (table : DataFrame.t) (video_frames : Z) (s0 : Editor.t) :
  Editor.init label_file video_file table video_frames = Ok s0 ->
  Editor.output_path label_file = Ok (Editor.fixed_label_file s0).
Proof.
  unfold Editor.init. destruct (Editor.output_path label_file); [|discriminate].
  destruct (Py.first _); [|discriminate]. intros [= <-]. reflexivity.
Qed.

End OutputPath.

(** ** More invariants of a session *)

Section SessionInvariants.

Import Editor.

(** X1. [changes_made] never goes back to false: once an edit is
    recorded the flag stays set wherever the run stands. *)
Theorem changes_made_monotone (inputs : list input) (s : t) :
  changes_made s = true -> changes_made (state_of (run inputs s)) = true.
Proof.
  apply (inv_run (fun s => changes_made s = true)); try (intros; simpl; assumption).
  - intros x y s0 H.
    destruct (save_label_cases s0 x y)
      as [[e ->]|[(e & name & df1 & _ & _ & _ & ->)|(name & df1 & df2 & _ & _ & _ & ->)]];
      simpl; auto.
  - intros s0 _ H.
    destruct (save_matlab_file_cases s0) as [[e ->]|(path & df_out & _ & ->)];
      simpl; exact H.
Qed.

Lemma changes_made_monotone_witness :
  exists s0 s1,
    init "/data/run1.h5" "/data/run1.avi" Sample.nose 3 = Ok s0
    /\ run [Sample.press 5 5; Sample.release 5 5] s0 = Waiting s1
    /\ changes_made s1 = true
    /\ changes_made (state_of (run [FrameTrackbar 2; Key 44; Sample.move 1 1; Key 27] s1))
       = true.
Proof.
  eexists. eexists. split; [vm_compute; reflexivity |].
  split; [vm_compute; reflexivity |].
  split; [vm_compute; reflexivity |].
  apply changes_made_monotone. vm_compute. reflexivity.
Defined.

Lemma setitem_shape (df df' : DataFrame.t) (k : DataFrame.key) (i : Z) (v : Float64.t) :
  DataFrame.setitem df k i v = Ok df' -> table_shape df' = table_shape df.
Proof.
  revert df'. induction df as [|[k' c] rest IH]; simpl; intros df'; [discriminate |].
  destruct (DataFrame.key_eqb k' k).
  - intros [= <-]. simpl. rewrite series_set_length. reflexivity.
  - destruct (DataFrame.setitem rest k i v) as [rest'|] eqn:E; [|discriminate].
    intros [= <-]. simpl. f_equal. apply IH. reflexivity.
Qed.

(** X2. A session never adds or removes a column or a row: the columns
    of the table, their order and their lengths are the same wherever the
    run stands. *)
Theorem table_shape_invariant (inputs : list input) (s : t) :
  table_shape (label_data (state_of (run inputs s))) = table_shape (label_data s).
Proof.
  apply (inv_run (fun s1 => table_shape (label_data s1) = table_shape (label_data s)));
    try (intros; simpl; assumption); [| |reflexivity].
  - intros x y s0 H.
    destruct (save_label_cases s0 x y)
      as [[e ->]|[(e & name & df1 & _ & E1 & _ & ->)|(name & df1 & df2 & _ & E1 & E2 & ->)]];
      simpl; auto.
    + rewrite (setitem_shape _ _ _ _ _ E1). exact H.
    + rewrite (setitem_shape _ _ _ _ _ E2), (setitem_shape _ _ _ _ _ E1). exact H.
  - intros s0 _ H.
    destruct (save_matlab_file_cases s0) as [[e ->]|(path & df_out & _ & ->)];
      simpl; exact H.
Qed.

(** X3. Only [x] and [y] columns are ever written: a column of any other
    channel (so every likelihood column) is the same wherever the run
    stands. *)
Theorem other_channels_untouched (inputs : list input) (s : t)
        (subject label channel : string) :
  channel <> "x" -> channel <> "y" ->
  DataFrame.getitem (label_data (state_of (run inputs s))) (subject, label, channel)
  = DataFrame.getitem (label_data s) (subject, label, channel).
Proof.
  intros Hx Hy.
  assert (Hnx : forall a b, (subject, label, channel) <> (a, b, "x")) by congruence.
  assert (Hny : forall a b, (subject, label, channel) <> (a, b, "y")) by congruence.
  apply (inv_run (fun s1 => DataFrame.getitem (label_data s1) (subject, label, channel)
                            = DataFrame.getitem (label_data s) (subject, label, channel)));
    try (intros; simpl; assumption); [| |reflexivity].
  - intros x y s0 H.
    destruct (save_label_cases s0 x y)
      as [[e ->]|[(e & name & df1 & _ & E1 & _ & ->)|(name & df1 & df2 & _ & E1 & E2 & ->)]];
      simpl; auto.
    + rewrite (getitem_setitem_other _ _ _ _ _ _ (Hnx _ _) E1). exact H.
    + rewrite (getitem_setitem_other _ _ _ _ _ _ (Hny _ _) E2),
              (getitem_setitem_other _ _ _ _ _ _ (Hnx _ _) E1). exact H.
  - intros s0 _ H.
    destruct (save_matlab_file_cases s0) as [[e ->]|(path & df_out & _ & ->)];
      simpl; exact H.
Qed.

Lemma other_channels_untouched_witness :
  exists s0,
    init "/data/run1.h5" "/data/run1.avi" Sample.nose 3 = Ok s0
    /\ DataFrame.getitem
         (label_data (state_of (run [Sample.press 5 5; Key 46; Sample.release 5 5; Key 27] s0))) 
         ("dlc", "nose", "likelihood")
       = DataFrame.getitem (label_data s0) ("dlc", "nose", "likelihood").
Proof.
  eexists. split; [vm_compute; reflexivity |].
  apply other_channels_untouched; discriminate.
Defined.

Lemma getitem_setitem_is_ok (df df' : DataFrame.t) (k k' : DataFrame.key) (i : Z)
      (v : Float64.t) :
  DataFrame.setitem df k i v = Ok df' ->
  is_ok (DataFrame.getitem df' k') = is_ok (DataFrame.getitem df k').
Proof.
  intros H. destruct (DataFrame.key_eqb k' k) eqn:Ek.
  - apply key_eqb_eq in Ek. subst k'.
    destruct (getitem_setitem_same _ _ _ _ _ H) as [col [-> ->]]. reflexivity.
  - apply key_eqb_neq in Ek. rewrite (getitem_setitem_other _ _ _ _ _ _ Ek H). reflexivity.
Qed.

Lemma xy_paired_check_sound (s : t) : xy_paired_check s = true -> xy_paired s.
Proof.
  intros H l cx Hx. unfold xy_paired_check in H. rewrite forallb_forall in H.
  specialize (H _ (getitem_in_keys _ _ _ Hx)). simpl in H.
  rewrite !String.eqb_refl in H. exact H.
Qed.

(** X4. In a session on a table whose labels have their [x] and [y]
    columns together, the corrected file on disk is never behind the
    table in memory: once an edit is recorded, the latest table file
    written is at the path fixed by [__init__] and holds exactly the
    table as it now stands. *)
Theorem corrected_file_holds_table (inputs : list input) (s : t) :
  xy_paired s -> changes_made s = false ->
  changes_made (state_of (run inputs s)) = true ->
  exists older,
    table_files (state_of (run inputs s))
    = (fixed_label_file s, H5File (label_data (state_of (run inputs s)))) :: older.
Proof.
  intros Hp Hc.
  set (P := fun s1 : t =>
              fixed_label_file s1 = fixed_label_file s
              /\ data_name s1 = data_name s
              /\ (forall k, is_ok (DataFrame.getitem (label_data s1) k)
                            = is_ok (DataFrame.getitem (label_data s) k))
              /\ (changes_made s1 = true ->
                  exists older,
                    table_files s1 = (fixed_label_file s, H5File (label_data s1)) :: older)).
  assert (HP : P (state_of (run inputs s))).
  { apply (inv_run P); unfold P; try (intros; simpl; assumption).
    - intros x y s0 (Hf & Hd & Hk & Hw).
      destruct (save_label_cases s0 x y)
        as [[e ->]|[(e & name & df1 & _ & E1 & Ey & ->)|(name & df1 & df2 & _ & E1 & E2 & ->)]];
        simpl; [auto | exfalso |].
      + destruct (getitem_setitem_same _ _ _ _ _ E1) as [cx [Ex _]].
        pose proof (Hp name) as Hpair.
        pose proof (Hk (data_name s, name, "x")) as Hkx.
        pose proof (Hk (data_name s, name, "y")) as Hky.
        rewrite Hd in Ex, Ey. rewrite Ex in Hkx. simpl in Hkx.
        destruct (DataFrame.getitem (label_data s) (data_name s, name, "x")) as [cx0|];
          [|discriminate].
        rewrite (Hpair cx0 eq_refl) in Hky.
        rewrite <- (getitem_setitem_is_ok _ _ _ (data_name s, name, "y") _ _ E1) in Hky.
        rewrite Ey in Hky. discriminate.
      + repeat split; auto.
        * intros k. rewrite (getitem_setitem_is_ok _ _ _ _ _ _ E2),
                            (getitem_setitem_is_ok _ _ _ _ _ _ E1). apply Hk.
        * intros _. unfold table_files. simpl. rewrite Hf. eauto.
    - intros s0 _ (Hf & Hd & Hk & Hw).
      destruct (save_matlab_file_cases s0) as [[e ->]|(path & df_out & _ & ->)];
        simpl; auto.
    - repeat split; auto. rewrite Hc. discriminate. }
  destruct HP as (_ & _ & _ & Hw). exact Hw.
Qed.

Lemma corrected_file_holds_table_witness :
  exists s0,
    init "/data/run1.h5" "/data/run1.avi" Sample.nose 3 = Ok s0
    /\ exists older,
        table_files (state_of (run [Sample.press 5 5; Key 46; Sample.move 6 6;
                                    Sample.release 6 6; Key 27] s0))
        = (fixed_label_file s0,
           H5File (label_data (state_of (run [Sample.press 5 5; Key 46; Sample.move 6 6;
                                              Sample.release 6 6; Key 27] s0)))) :: older.
Proof.
  eexists. split; [vm_compute; reflexivity |].
  apply corrected_file_holds_table.
  - apply xy_paired_check_sound. vm_compute. reflexivity.
  - vm_compute. reflexivity.
  - vm_compute. reflexivity.
Defined.

(** X5. Without a left-button press nothing is edited or written: from
    an editor that is idle and clean, a session whose inputs hold no press
    leaves the table and the files as they were, whatever trackbar values,
    pointer movements, releases and keys it is given. *)
Theorem session_without_press_changes_nothing (inputs : list input) (s : t) :
  (forall ex ey, ~ In (Mouse EVENT_LBUTTONDOWN ex ey) inputs) ->
  mouse_pressed s = false -> changes_made s = false ->
  label_data (state_of (run inputs s)) = label_data s
  /\ files (state_of (run inputs s)) = files s
  /\ changes_made (state_of (run inputs s)) = false.
Proof.
  intros Hin Hp Hc.
  set (Q := fun s1 : t => mouse_pressed s1 = false /\ changes_made s1 = false
                          /\ label_data s1 = label_data s /\ files s1 = files s).
  assert (Htop : forall s1, Q s1 -> snd (loop_top s1) = s1).
  { intros s1 (Hp1 & _). unfold loop_top, bind, self, draw_label, ret. rewrite Hp1.
    pose proof (get_label_xy_state s1) as E.
    destruct (get_label_xy s1) as [[xy|e] s']; simpl in *; auto. }
  assert (Hw : forall inputs s1,
             (forall ex ey, ~ In (Mouse EVENT_LBUTTONDOWN ex ey) inputs) ->
             Q s1 -> Q (state_of (wait_key inputs s1))).
  { clear Hin. intros inputs0. induction inputs0 as [|i rest IH]; intros s1 Hin HQ;
      simpl; [exact HQ |].
    assert (Hrest : forall ex ey, ~ In (Mouse EVENT_LBUTTONDOWN ex ey) rest).
    { intros ex ey H. apply (Hin ex ey). right. exact H. }
    destruct i as [event ex ey|val|val|key].
    - apply IH; [exact Hrest |].
      unfold callback, edit_label, bind, self, modify, ret, display_label, draw_label.
      destruct (event =? EVENT_LBUTTONDOWN) eqn:Ed;
        [exfalso; apply (Hin ex ey); left; f_equal; apply Z.eqb_eq, Ed |].
      destruct (event =? EVENT_LBUTTONUP); [destruct HQ as (_ & ? & ? & ?); split; auto |].
      destruct (event =? EVENT_MOUSEMOVE); [|exact HQ].
      destruct HQ as (Hp1 & ? & ? & ?). rewrite Hp1. split; auto.
    - apply IH; [exact Hrest |].
      unfold callback, on_label_trackbar, bind, modify, draw_label, ret.
      pose proof (get_label_xy_state (set_current_label val s1)) as E.
      destruct (get_label_xy _) as [[xy|e] s']; simpl in *; subst; exact HQ.
    - apply IH; [exact Hrest |].
      unfold callback, on_frame_trackbar, bind, modify, draw_label, ret.
      pose proof (get_label_xy_state (set_current_frame val s1)) as E.
      destruct (get_label_xy _) as [[xy|e] s']; simpl in *; subst; exact HQ.
    - assert (Hk : Q (snd (key_event key s1))).
      { unfold key_event, bind, self, modify, ret.
        destruct (key =? 44); [exact HQ |].
        destruct (key =? 46); [exact HQ |].
        destruct (key =? 27); exact HQ. }
      destruct (key_event key s1) as [[[|]|e] s2]; simpl in Hk.
      + pose proof (Htop s2 Hk) as E.
        destruct (loop_top s2) as [[u|e] s3]; simpl in E; subst; simpl; auto.
      + unfold finish, bind, self, ret. destruct Hk as (Hp2 & Hc2 & Hrest2).
        rewrite Hc2. simpl. repeat split; auto; apply Hrest2.
      + exact Hk. }
  assert (HQ0 : Q s) by (repeat split; auto).
  assert (HQ : Q (state_of (run inputs s))).
  { unfold run. pose proof (Htop s HQ0) as E.
    destruct (loop_top s) as [[u|e] s1]; simpl in E; subst; simpl; auto. }
  destruct HQ as (_ & H1 & H2 & H3). auto.
Qed.

Lemma session_without_press_changes_nothing_witness :
  exists s0,
    init "/data/run1.h5" "/data/run1.avi" Sample.nose 3 = Ok s0
    /\ label_data (state_of (run [Sample.move 3 3; LabelTrackbar 0; Sample.release 3 3;
                                   Key 46; FrameTrackbar 0; Key 27] s0))
       = label_data s0.
Proof.
  eexists. split; [vm_compute; reflexivity |].
  apply session_without_press_changes_nothing.
  - intros ex ey H. simpl in H.
    repeat (destruct H as [H|H]; [discriminate H |]). exact H.
  - reflexivity.
  - reflexivity.
Defined.

End SessionInvariants.

(** ** Saving and reading a cell *)

Section SaveAndRead.

Import Editor.

(** The fields after a save into an existing cell. *)
Lemma save_label_on_cell (s : t) (x y : Z) (name : string) (vx vy : Float64.t) :
  Py.array_get (label_names s) (current_label s) = Ok name ->
  DataFrame.cell (label_data s) (data_name s, name, "x") (current_frame s) = Some vx ->
  DataFrame.cell (label_data s) (data_name s, name, "y") (current_frame s) = Some vy ->
  exists df,
    save_label x y s
    = (Ok tt, set_changes_made true
                (write_file (fixed_label_file s) (H5File df) (set_label_data df s)))
    /\ DataFrame.cell df (data_name s, name, "x") (current_frame s)
       = Some (Float64.of_int x)
    /\ DataFrame.cell df (data_name s, name, "y") (current_frame s)
       = Some (Float64.of_int y).
Proof.
  intros Hn Hx Hy.
  assert (exists df1, DataFrame.setitem (label_data s) (data_name s, name, "x")
                        (current_frame s) (Float64.of_int x) = Ok df1) as [df1 H1].
  { unfold DataFrame.cell in Hx.
    destruct (DataFrame.getitem (label_data s) (data_name s, name, "x")) as [cx|] eqn:Ex;
      [|discriminate].
    eapply setitem_ok, Ex. }
  assert (Hy1 : DataFrame.cell df1 (data_name s, name, "y") (current_frame s) = Some vy).
  { rewrite <- Hy. eapply cell_setitem_other; [|exact H1]. congruence. }
  assert (exists df2, DataFrame.setitem df1 (data_name s, name, "y")
                        (current_frame s) (Float64.of_int y) = Ok df2) as [df2 H2].
  { unfold DataFrame.cell in Hy1.
    destruct (DataFrame.getitem df1 (data_name s, name, "y")) as [cy|] eqn:Ey;
      [|discriminate].
    eapply setitem_ok, Ey. }
  exists df2. split; [|split].
  - unfold save_label, bind, lift, self, modify. rewrite Hn, H1. simpl.
    rewrite Hn, H2. reflexivity.
  - rewrite (cell_setitem_other df1 df2 (data_name s, name, "y") (data_name s, name, "x")
               (current_frame s) (current_frame s) (Float64.of_int y));
      [|congruence|exact H2].
    eapply cell_setitem_same; eauto.
  - eapply cell_setitem_same; eauto.
Qed.

(** X6. While the button is held, any key but Esc commits the pointer:
    the key is handled (a frame key moves the cursor first), and the top
    of the next iteration writes the last pointer position into the cell
    of the cursor as it then stands. So a frame key pressed during a drag
    stamps the pointer position on the neighbouring frame. *)
Theorem key_while_held_commits_pointer
        (s : t) (key : Z) (rest : list input) (name : string) (vx vy : Float64.t) :
  mouse_pressed s = true -> key <> 27 ->
  Py.array_get (label_names s) (current_label s) = Ok name ->
  DataFrame.cell (label_data s) (data_name s, name, "x")
    (current_frame (snd (key_event key s))) = Some vx ->
  DataFrame.cell (label_data s) (data_name s, name, "y")
    (current_frame (snd (key_event key s))) = Some vy ->
  exists s2,
    wait_key (Key key :: rest) s = wait_key rest s2
    /\ current_frame s2 = current_frame (snd (key_event key s))
    /\ DataFrame.cell (label_data s2) (data_name s, name, "x") (current_frame s2)
       = Some (Float64.of_int (mx s))
    /\ DataFrame.cell (label_data s2) (data_name s, name, "y") (current_frame s2)
       = Some (Float64.of_int (my s))
    /\ changes_made s2 = true.
Proof.
  intros Hp Hk Hn Hx Hy.
  assert (Hkey : exists f, key_event key s = (Ok true, set_current_frame f s)
                           \/ (key_event key s = (Ok true, s) /\ f = current_frame s)).
  { unfold key_event, bind, self, modify, ret.
    destruct (key =? 44); [eexists; left; reflexivity |].
    destruct (key =? 46); [eexists; left; reflexivity |].
    destruct (key =? 27) eqn:E; [apply Z.eqb_eq in E; contradiction |].
    exists (current_frame s). right. auto. }
  destruct Hkey as [f Hkey].
  assert (Hs1 : exists s1, key_event key s = (Ok true, s1)
                           /\ mouse_pressed s1 = true /\ mx s1 = mx s /\ my s1 = my s
                           /\ label_names s1 = label_names s
                           /\ current_label s1 = current_label s
                           /\ data_name s1 = data_name s
                           /\ label_data s1 = label_data s).
  { destruct Hkey as [E|[E _]]; eexists; (split; [exact E |]); simpl; auto 10. }
  destruct Hs1 as (s1 & E & Hp1 & Hmx & Hmy & Hl & Hc & Hd & Hdf).
  rewrite E in Hx, Hy. simpl in Hx, Hy.
  destruct (save_label_on_cell s1 (mx s1) (my s1) name vx vy) as (df & Es & Cx & Cy).
  { rewrite Hl, Hc. exact Hn. }
  { rewrite Hdf, Hd. exact Hx. }
  { rewrite Hdf, Hd. exact Hy. }
  eexists. split.
  - simpl. rewrite E. unfold loop_top, bind, self, draw_label, ret. rewrite Hp1, Es.
    simpl. reflexivity.
  - rewrite E. simpl. rewrite <- Hd, <- Hmx, <- Hmy. auto.
Qed.

Lemma key_while_held_commits_pointer_witness :
  exists s0 s1,
    init "/data/run1.h5" "/data/run1.avi" Sample.nose 3 = Ok s0
    /\ run [Sample.press 5 5; Sample.move 7 7] s0 = Waiting s1
    /\ exists s2,
        wait_key [Key 46; Sample.release 7 7] s1 = wait_key [Sample.release 7 7] s2
        /\ current_frame s2 = 1
        /\ DataFrame.cell (label_data s2) ("dlc", "nose", "x") 1 = Some (Float64.of_int 7).
Proof.
  eexists. eexists. split; [vm_compute; reflexivity |].
  split; [vm_compute; reflexivity |].
  match goal with
  | |- exists s2, wait_key _ ?s1 = _ /\ _ =>
      edestruct (key_while_held_commits_pointer s1 46 [Sample.release 7 7] "nose")
        as (s2 & E & Hf & Hx & _);
      [vm_compute; reflexivity | discriminate | vm_compute; reflexivity
      | vm_compute; reflexivity | vm_compute; reflexivity |]
  end.
  exists s2. split; [exact E |].
  assert (Hf1 : current_frame s2 = 1) by (rewrite Hf; vm_compute; reflexivity).
  split; [exact Hf1 |]. rewrite <- Hf1. exact Hx.
Defined.

Lemma frame_cursor_in_range_witness :
  exists s0,
    init "/data/run1.h5" "/data/run1.avi" Sample.nose 3 = Ok s0
    /\ 0 <= current_frame (state_of (run [Key 46; Key 46; Key 46; Key 46; FrameTrackbar 2;
                                          Key 46; Key 44; Key 27] s0)) <= frame_count s0.
Proof.
  eexists. split; [vm_compute; reflexivity |].
  apply frame_cursor_in_range.
  - repeat constructor; vm_compute; discriminate.
  - vm_compute. split; discriminate.
Defined.

End SaveAndRead.

(** ** Exact storage of pixel coordinates *)

Section Float64RoundTrip.

Lemma digits2_pos_size (p : positive) : digits2_pos p = Pos.size p.
Proof. induction p as [p IH|p IH|]; simpl; congruence. Qed.

Lemma digits2_pos_bound (p : positive) :
  Zpos p < 2 ^ 53 -> Zpos (digits2_pos p) <= 53.
Proof.
  intros H. rewrite digits2_pos_size.
  pose proof (Pos.size_le p) as Hle.
  assert (H2 : 2 ^ Zpos (Pos.size p) <= 2 * Zpos p).
  { rewrite <- Pos2Z.inj_pow. change (2 * Zpos p) with (Zpos p~0). 
    apply Pos2Z.pos_le_pos. exact Hle. }
  assert (H3 : 2 ^ Zpos (Pos.size p) < 2 ^ 54).
  { change (2 ^ 54) with (2 * 2 ^ 53). lia. }
  apply Z.pow_lt_mono_r_iff in H3; lia.
Qed.

Lemma iter_xO_digits (p k : positive) :
  digits2_pos (Pos.iter xO p k) = (digits2_pos p + k)%positive.
Proof.
  induction k as [|k IH] using Pos.peano_ind.
  - simpl. lia.
  - rewrite Pos.iter_succ. simpl. rewrite IH. lia.
Qed.

Lemma iter_xO_value (p k : positive) :
  Zpos (Pos.iter xO p k) = Zpos p * 2 ^ Zpos k.
Proof.
  induction k as [|k IH] using Pos.peano_ind.
  - simpl. lia.
  - rewrite Pos.iter_succ, Pos2Z.inj_succ, Z.pow_succ_r by lia.
    change (Zpos (Pos.iter xO p k)~0) with (2 * Zpos (Pos.iter xO p k)). rewrite IH. lia.
Qed.

Lemma binary_round_aux_normal (sx : bool) (mz : positive) (ez : Z) :
  digits2_pos mz = 53%positive -> -1074 <= ez <= 971 ->
  binary_round_aux 53 1024 sx (Zpos mz) ez loc_Exact = S754_finite sx mz ez.
Proof.
  intros Hd He.
  assert (Hs : forall l, l = loc_Exact ->
             shr_fexp 53 1024 (Zpos mz) ez l
             = ({| shr_m := Zpos mz; shr_r := false; shr_s := false |}, ez)).
  { intros l ->. unfold shr_fexp, fexp, emin. cbn [Zdigits2]. rewrite Hd.
    replace (Z.max (53 + ez - 53) (3 - 1024 - 53) - ez) with 0 by lia.
    reflexivity. }
  unfold binary_round_aux. rewrite (Hs _ eq_refl).
  cbn [shr_m loc_of_shr_record round_nearest_even]. rewrite (Hs _ eq_refl).
  cbn [shr_m]. destruct (Z.leb_spec ez (1024 - 53)); [reflexivity | lia].
Qed.

Lemma binary_round_small (sx : bool) (p : positive) :
  Zpos p < 2 ^ 53 ->
  exists mz ez,
    binary_round 53 1024 sx p 0 = S754_finite sx mz ez
    /\ -52 <= ez <= 0 /\ Zpos mz = Zpos p * 2 ^ (- ez).
Proof.
  intros Hp. pose proof (digits2_pos_bound p Hp) as Hd.
  unfold binary_round, shl_align, fexp, emin.
  replace (Z.max (Zpos (digits2_pos p) + 0 - 53) (3 - 1024 - 53) - 0)
    with (Zpos (digits2_pos p) - 53) by lia.
  replace (Z.max (Zpos (digits2_pos p) + 0 - 53) (3 - 1024 - 53))
    with (Zpos (digits2_pos p) - 53) by lia.
  destruct (Zpos (digits2_pos p) - 53) as [|k|k] eqn:Ek; [|lia|].
  - exists p, 0. split; [|split; [lia | simpl; lia]].
    apply binary_round_aux_normal; [|lia].
    apply Pos2Z.inj. lia.
  - exists (Pos.iter xO p k), (Zneg k). split; [|split].
    + apply binary_round_aux_normal; [|lia].
      rewrite iter_xO_digits. apply Pos2Z.inj. rewrite Pos2Z.inj_add. lia.
    + lia.
    + rewrite iter_xO_value. reflexivity.
Qed.

Lemma int_round_scaled (sx : bool) (mz p : positive) (ez : Z) :
  ez <= 0 -> Zpos mz = Zpos p * 2 ^ (- ez) ->
  Float64.int_round (S754_finite sx mz ez) = Ok (if sx then Zneg p else Zpos p).
Proof.
  intros He Hm. unfold Float64.int_round.
  destruct ez as [|k|k]; [|lia|].
  - simpl in Hm. replace (Zpos mz) with (Zpos p) by lia. destruct sx; reflexivity.
  - change (- Zneg k) with (Zpos k) in Hm. unfold Float64.rint_shift. rewrite Hm.
    assert (Hpow : 0 < 2 ^ Zpos k) by (apply Z.pow_pos_nonneg; lia).
    rewrite Z.div_mul, Z.mod_mul by lia.
    change (2 * 0) with 0.
    destruct (Z.compare_spec 0 (2 ^ Zpos k)); [lia | | lia].
    destruct sx; reflexivity.
Qed.

(** An integer below 2^53 in size is stored exactly: it rounds back to
    itself. *)
Lemma int_round_of_int (z : Z) :
  - 2 ^ 53 < z < 2 ^ 53 -> Float64.int_round (Float64.of_int z) = Ok z.
Proof.
  intros Hz. unfold Float64.of_int, binary_normalize.
  destruct z as [|p|p]; [reflexivity | |].
  - destruct (binary_round_small false p) as (mz & ez & -> & He & Hm); [lia |].
    apply (int_round_scaled false mz p ez); [lia | exact Hm].
  - destruct (binary_round_small true p) as (mz & ez & -> & He & Hm); [lia |].
    apply (int_round_scaled true mz p ez); [lia | exact Hm].
Qed.

End Float64RoundTrip.

(** ** Reading: values, errors, and the round trip with a save *)

Section Reading.

Import Editor.

(** X8. A read that returns gives both coordinates or neither, never
    one number beside one NaN, and leaves every field as it was. *)
Theorem get_label_xy_both_or_neither (s s' : t) (xy : coord * coord) :
  get_label_xy s = (Ok xy, s') ->
  s' = s /\ (xy = (CNan, CNan) \/ exists zx zy, xy = (CInt zx, CInt zy)).
Proof.
  intros H. pose proof (get_label_xy_state s) as Hs. rewrite H in Hs. simpl in Hs.
  split; [exact Hs |]. revert H.
  unfold get_label_xy, bind, lift, self, ret.
  repeat match goal with
         | |- context [match ?r with Ok _ => _ | Raise _ => _ end] => destruct r
         | |- context [if ?b then _ else _] => destruct b
         end; intros [= <- _]; eauto.
Qed.

Lemma get_label_xy_both_or_neither_witness :
  exists s0,
    init "/data/run1.h5" "/data/run1.avi" Sample.nose 3 = Ok s0
    /\ get_label_xy s0 = (Ok (CInt 10, CInt 10), s0)
    /\ ((CInt 10, CInt 10) = (CNan, CNan)
        \/ exists zx zy, (CInt 10, CInt 10) = (CInt zx, CInt zy)).
Proof.
  eexists. split; [vm_compute; reflexivity |].
  match goal with
  | |- get_label_xy ?s = (Ok ?a, _) /\ _ =>
      assert (E : get_label_xy s = (Ok a, s)) by (vm_compute; reflexivity);
      split; [exact E | exact (proj2 (get_label_xy_both_or_neither s s a E))]
  end.
Defined.

Lemma getitem_raises_key_error (df : DataFrame.t) (k : DataFrame.key) (e : exn) :
  DataFrame.getitem df k = Raise e -> e = KeyError.
Proof.
  induction df as [|[k' c] rest IH]; simpl; [congruence |].
  destruct (DataFrame.key_eqb k' k); [discriminate | exact IH].
Qed.

(** X9. The errors of a read, none of which changes a field: a label
    index outside [-n .. n-1] for [n] labels raises [IndexError]; a label
    without an [x] column raises [KeyError]; and a frame that is not a
    row of the column (negative, or past the last row) raises
    [KeyError]. *)
Theorem get_label_xy_errors (s : t) :
  (current_label s < - Z.of_nat (length (label_names s))
   \/ Z.of_nat (length (label_names s)) <= current_label s ->
   get_label_xy s = (Raise IndexError, s))
  /\ (forall name e,
        Py.array_get (label_names s) (current_label s) = Ok name ->
        DataFrame.getitem (label_data s) (data_name s, name, "x") = Raise e ->
        get_label_xy s = (Raise KeyError, s))
  /\ (forall name col,
        Py.array_get (label_names s) (current_label s) = Ok name ->
        DataFrame.getitem (label_data s) (data_name s, name, "x") = Ok col ->
        current_frame s < 0 \/ Z.of_nat (length col) <= current_frame s ->
        get_label_xy s = (Raise KeyError, s)).
Proof.
  split; [|split].
  - intros H. unfold get_label_xy, bind, lift, self.
    assert (E : Py.array_get (label_names s) (current_label s) = Raise IndexError).
    { unfold Py.array_get.
      destruct (Z.ltb_spec (current_label s) 0);
        [destruct (Z.ltb_spec (current_label s + Z.of_nat (length (label_names s))) 0);
           [reflexivity | lia]
        |].
      destruct (Z.ltb_spec (current_label s) 0); [lia |].
      destruct (Z.leb_spec (Z.of_nat (length (label_names s))) (current_label s));
        [reflexivity | lia]. }
    rewrite E. reflexivity.
  - intros name e Hn Hg. unfold get_label_xy, bind, lift, self. rewrite Hn, Hg.
    rewrite (getitem_raises_key_error _ _ _ Hg). reflexivity.
  - intros name col Hn Hg Hf. unfold get_label_xy, bind, lift, self. rewrite Hn, Hg.
    unfold DataFrame.series_get.
    destruct (Z.ltb_spec (current_frame s) 0); [reflexivity |].
    rewrite (proj2 (lookup_ge_None col (Z.to_nat (current_frame s)))) by lia.
    reflexivity.
Qed.

Lemma get_label_xy_errors_witness :
  exists s0,
    init "/data/run1.h5" "/data/run1.avi" Sample.nose 3 = Ok s0
    /\ get_label_xy (set_current_label (-2) s0) = (Raise IndexError, set_current_label (-2) s0)
    /\ get_label_xy (set_current_frame 3 s0) = (Raise KeyError, set_current_frame 3 s0).
Proof.
  eexists. split; [vm_compute; reflexivity |].
  match goal with
  | |- get_label_xy (set_current_label _ ?s) = _ /\ _ =>
      pose proof (get_label_xy_errors (set_current_label (-2) s)) as (H1 & _ & _);
      pose proof (get_label_xy_errors (set_current_frame 3 s)) as (_ & _ & H2)
  end.
  split.
  - apply H1. left. vm_compute. reflexivity.
  - eapply (H2 "nose"); [vm_compute; reflexivity | vm_compute; reflexivity |].
    right. vm_compute. discriminate.
Defined.

(** X10. Round trip: after a save of a pointer position into an existing
    cell, a read at the same cursor returns that position (for
    coordinates below 2^53 in size, which every pixel coordinate is). *)
Theorem save_then_read (s s' : t) (x y : Z) (name : string) (vx vy : Float64.t) :
  - 2 ^ 53 < x < 2 ^ 53 -> - 2 ^ 53 < y < 2 ^ 53 ->
  Py.array_get (label_names s) (current_label s) = Ok name ->
  DataFrame.cell (label_data s) (data_name s, name, "x") (current_frame s) = Some vx ->
  DataFrame.cell (label_data s) (data_name s, name, "y") (current_frame s) = Some vy ->
  save_label x y s = (Ok tt, s') ->
  get_label_xy s' = (Ok (CInt x, CInt y), s').
Proof.
  intros Hx Hy Hn Cx Cy Hs.
  destruct (save_label_on_cell s x y name vx vy Hn Cx Cy) as (df & E & Dx & Dy).
  rewrite E in Hs. injection Hs as <-.
  rewrite (get_label_xy_value _ name (Float64.of_int x) (Float64.of_int y));
    [| exact Hn | exact Dx | exact Dy].
  rewrite of_int_not_nan, !int_round_of_int by assumption. reflexivity.
Qed.

Lemma save_then_read_witness :
  exists s0 s',
    init "/data/run1.h5" "/data/run1.avi" Sample.nose 3 = Ok s0
    /\ save_label 640 (-3) (set_current_frame 1 s0) = (Ok tt, s')
    /\ get_label_xy s' = (Ok (CInt 640, CInt (-3)), s').
Proof.
  eexists. eexists. split; [vm_compute; reflexivity |].
  match goal with
  | |- save_label ?x ?y ?s = (Ok tt, ?s') /\ _ =>
      assert (E : save_label x y s = (Ok tt, s')) by (vm_compute; reflexivity);
      split; [exact E |];
      eapply (save_then_read s _ x y "nose");
        [ vm_compute; split; reflexivity | vm_compute; split; reflexivity
        | vm_compute; reflexivity | vm_compute; reflexivity | vm_compute; reflexivity
        | exact E ]
  end.
Defined.

(** X11. A press that cannot be saved starts no drag: when the label
    index selects no label, or the label has no [x] column, the press
    only records the pointer position; the button flag, the table, the
    files and [changes_made] stay as they were. *)
Theorem failed_press_starts_no_drag (s : t) (ex ey : Z) :
  (exists e, Py.array_get (label_names s) (current_label s) = Raise e)
  \/ (exists name e,
        Py.array_get (label_names s) (current_label s) = Ok name
        /\ DataFrame.getitem (label_data s) (data_name s, name, "x") = Raise e) ->
  callback (edit_label EVENT_LBUTTONDOWN ex ey) s = set_mouse ex ey s.
Proof.
  intros H. unfold callback, edit_label.
  change (EVENT_LBUTTONDOWN =? EVENT_LBUTTONDOWN) with true. cbv iota.
  unfold bind, self, modify. cbv beta iota.
  assert (E : exists e, save_label (mx (set_mouse ex ey s)) (my (set_mouse ex ey s))
                          (set_mouse ex ey s) = (Raise e, set_mouse ex ey s)).
  { unfold save_label, bind, lift, self, modify. cbv beta.
    change (label_names (set_mouse ex ey s)) with (label_names s).
    change (current_label (set_mouse ex ey s)) with (current_label s).
    change (label_data (set_mouse ex ey s)) with (label_data s).
    change (data_name (set_mouse ex ey s)) with (data_name s).
    destruct H as [[e ->]|(name & e & -> & Hg)]; [eauto |].
    rewrite (setitem_raise _ _ _ _ _ Hg). eauto. }
  destruct E as [e ->]. reflexivity.
Qed.

Lemma failed_press_starts_no_drag_witness :
  exists s0,
    init "/data/run1.h5" "/data/run1.avi" two_subjects 1 = Ok s0
    /\ callback (edit_label EVENT_LBUTTONDOWN 8 9) (set_current_label 1 s0)
       = set_mouse 8 9 (set_current_label 1 s0).
Proof.
  eexists. split; [vm_compute; reflexivity |].
  apply failed_press_starts_no_drag. right. exists "tail", KeyError.
  split; vm_compute; reflexivity.
Defined.

End Reading.

(** ** The labels of a table *)

Section Labels.

Import Editor.

Lemma name_lt_trans (a b c : string) : name_lt a b -> name_lt b c -> name_lt a c.
Proof.
  unfold name_lt. intros H1 H2.
  apply String_as_OT.cmp_lt. apply String_as_OT.cmp_lt in H1, H2.
  eapply String_as_OT.lt_trans; eauto.
Qed.

Lemma insert_sorted_In (a x : string) (l : list string) :
  In x (Py.insert_sorted a l) <-> x = a \/ In x l.
Proof.
  induction l as [|y l IH]; simpl; [intuition |].
  destruct (String.compare a y) eqn:E; simpl.
  - apply String.compare_eq_iff in E. subst y. intuition.
  - intuition.
  - rewrite IH. intuition.
Qed.

Lemma insert_sorted_HdRel (a b : string) (l : list string) :
  name_lt b a -> HdRel name_lt b l -> HdRel name_lt b (Py.insert_sorted a l).
Proof.
  intros Hba Hl. destruct l as [|y l]; simpl; [constructor; exact Hba |].
  destruct (String.compare a y); [exact Hl | constructor; exact Hba |].
  inversion Hl. constructor. assumption.
Qed.

Lemma insert_sorted_Sorted (a : string) (l : list string) :
  Sorted name_lt l -> Sorted name_lt (Py.insert_sorted a l).
Proof.
  induction l as [|y l IH]; intros Hs; simpl; [repeat constructor |].
  destruct (String.compare a y) eqn:E.
  - exact Hs.
  - constructor; [exact Hs | constructor; exact E].
  - inversion Hs as [|? ? Hs' Hd]. subst. constructor; [apply IH, Hs' |].
    apply insert_sorted_HdRel; [|exact Hd].
    unfold name_lt. rewrite String.compare_antisym, E. reflexivity.
Qed.

Lemma unique_In (x : string) (l : list string) : In x (Py.unique l) <-> In x l.
Proof.
  induction l as [|a l IH]; simpl; [reflexivity |].
  rewrite insert_sorted_In, IH. intuition.
Qed.

Lemma unique_Sorted (l : list string) : Sorted name_lt (Py.unique l).
Proof.
  induction l as [|a l IH]; simpl; [constructor | apply insert_sorted_Sorted, IH].
Qed.

Lemma sorted_NoDup (l : list string) : StronglySorted name_lt l -> NoDup l.
Proof.
  intros Hl. induction Hl as [|n l Hl IH Ha]; constructor; [|exact IH].
  intros Hin. rewrite Forall_forall in Ha. specialize (Ha n Hin).
  unfold name_lt in Ha.
  assert (E : String.compare n n = Eq) by (apply String_as_OT.cmp_eq; reflexivity).
  congruence.
Qed.

(** X12. The labels an editor offers are the labels of the table's
    columns, each once, in ascending order of name: a name is among
    [label_names] exactly when some column carries it, and every name in
    the list is smaller than all the names after it. *)
Theorem label_names_sorted_distinct
        (label_file video_file : string) (table : DataFrame.t)
        (video_frames : Z) (s0 : t) :
  init label_file video_file table video_frames = Ok s0 ->
  (forall l, In l (label_names s0)
             <-> exists subject channel, In (subject, l, channel) (DataFrame.keys table))
  /\ StronglySorted name_lt (label_names s0)
  /\ NoDup (label_names s0).
Proof.
  unfold init. destruct (output_path label_file); [|discriminate].
  destruct (Py.first _); [|discriminate]. intros [= <-]. simpl.
  assert (Hsorted : StronglySorted name_lt
                      (Py.unique (map (fun k : DataFrame.key => snd (fst k))
                                      (DataFrame.keys table)))).
  { apply Sorted_StronglySorted; [|apply unique_Sorted].
    intros n1 n2 n3. apply name_lt_trans. }
  split; [|split].
  - intros l. rewrite unique_In, in_map_iff. split.
    + intros [[[subject l'] channel] [E Hin]]. simpl in E. subst l'. eauto.
    + intros (subject & channel & Hin). exists (subject, l, channel). auto.
  - exact Hsorted.
  - apply sorted_NoDup. exact Hsorted.
Qed.

Lemma label_names_sorted_distinct_witness :
  exists s0,
    init "/data/run1.h5" "/data/run1.avi" Sample.ragged 3 = Ok s0
    /\ label_names s0 = ["nose"; "tail"]
    /\ NoDup (label_names s0).
Proof.
  eexists. split; [vm_compute; reflexivity |].
  split; [vm_compute; reflexivity |].
  eapply (label_names_sorted_distinct "/data/run1.h5" "/data/run1.avi" Sample.ragged 3).
  vm_compute. reflexivity.
Defined.

End Labels.

(** ** Leaving the editor, and the converter's run *)

Section Leaving.

Import Editor.

(** A label without one of its three columns stops the loop over the
    labels with [KeyError]. *)
Lemma mat_entries_missing (df : DataFrame.t) (subject : string) (labels : list string) :
  forall acc l,
    l ∈ labels -> column_entry df subject l = None ->
    mat_entries df subject labels acc = Raise KeyError.
Proof.
  induction labels as [|label rest IH]; intros acc l Hin Hnone;
    [inversion Hin |]. simpl.
  destruct (DataFrame.getitem df (subject, label, "x")) as [cx|e] eqn:Ex;
    [|rewrite (getitem_raises_key_error _ _ _ Ex); reflexivity].
  destruct (DataFrame.getitem df (subject, label, "y")) as [cy|e] eqn:Ey;
    [|rewrite (getitem_raises_key_error _ _ _ Ey); reflexivity].
  destruct (DataFrame.getitem df (subject, label, "likelihood")) as [cl|e] eqn:El;
    [|rewrite (getitem_raises_key_error _ _ _ El); reflexivity].
  apply elem_of_cons in Hin. destruct Hin as [->|Hin].
  - unfold column_entry in Hnone. rewrite Ex, Ey, El in Hnone. discriminate.
  - eapply IH; eauto.
Qed.

(** X13. Esc ends the run, whatever inputs follow it. When every label
    has its three columns the run returns cleanly: with [changes_made]
    set, the MAT file is written last, next to the input and under its
    base name, and nothing else changes; otherwise nothing is written. *)
Theorem quit_exports_iff_dirty (s : t) (rest : list input) :
  (forall l, l ∈ label_names s ->
             is_Some (column_entry (label_data s) (data_name s) l)) ->
  exists df_out,
    mat_entries (label_data s) (data_name s) (label_names s) ∅ = Ok df_out
    /\ wait_key (Key 27 :: rest) s
       = Exited (if changes_made s
                 then write_file (mat_path (label_file s)) (MatFile df_out) s
                 else s).
Proof.
  intros Hcols.
  destruct (mat_entries_lookup (label_data s) (data_name s) (label_names s) ∅ Hcols)
    as [df_out [Hm _]].
  exists df_out. split; [exact Hm |].
  simpl. unfold key_event, finish, save_matlab_file, bind, lift, self, modify, ret.
  change (27 =? 44) with false. change (27 =? 46) with false.
  change (27 =? 27) with true. cbv iota.
  destruct (changes_made s); [|reflexivity].
  rewrite Hm. reflexivity.
Qed.

Lemma quit_exports_iff_dirty_witness :
  exists s0 s1 df_out,
    init "/data/run1.h5" "/data/run1.avi" Sample.nose 3 = Ok s0
    /\ run [Sample.press 5 5; Sample.release 5 5] s0 = Waiting s1
    /\ wait_key [Key 27; Key 46] s1
       = Exited (write_file "/data/run1.mat" (MatFile df_out) s1).
Proof.
  eexists. eexists.
  match goal with
  | |- exists df_out, init ?lf ?vf ?tb ?n = Ok ?s0 /\ run ?i _ = Waiting ?s1 /\ _ =>
      assert (E0 : init lf vf tb n = Ok s0) by (vm_compute; reflexivity);
      assert (E1 : run i s0 = Waiting s1) by (vm_compute; reflexivity);
      destruct (quit_exports_iff_dirty s1 [Key 46]) as (df_out & _ & Hq)
  end.
  - intros l Hl. apply list_elem_of_singleton in Hl. subst l.
    vm_compute. eauto.
  - exists df_out. split; [exact E0 |]. split; [exact E1 |]. exact Hq.
Defined.

(** X14. A label that lacks one of its three columns under the subject
    of the first column makes the export raise [KeyError] with nothing
    written: the editor's run ends with that exception at Esc after an
    edit, and the converter's run raises it. *)
Theorem export_with_missing_column
        (s : t) (c : MatConverter.t) (rest : list input) (l : string) :
  (changes_made s = true -> l ∈ label_names s ->
   column_entry (label_data s) (data_name s) l = None ->
   wait_key (Key 27 :: rest) s = Crashed KeyError s)
  /\ (l ∈ MatConverter.label_names c ->
      column_entry (MatConverter.label_data c) (MatConverter.data_name c) l = None ->
      MatConverter.run c = (Raise KeyError, c)).
Proof.
  split.
  - intros Hc Hin Hnone. simpl.
    unfold key_event, finish, save_matlab_file, bind, lift, self, modify, ret.
    change (27 =? 44) with false. change (27 =? 46) with false.
    change (27 =? 27) with true. cbv iota. rewrite Hc.
    rewrite (mat_entries_missing _ _ _ ∅ l Hin Hnone). reflexivity.
  - intros Hin Hnone. unfold MatConverter.run, MatConverter.save_matlab_file.
    rewrite <- mat_entries_agree.
    rewrite (mat_entries_missing _ _ _ ∅ l Hin Hnone). reflexivity.
Qed.

End Leaving.

(** ** The command lines *)

Section CommandLines.

(** X15. Which command lines the editor accepts. The parameters are
    returned exactly when both numbers convert, both files exist, the
    label file's extension is [.h5] and the video's [.avi] or [.mp4]
    (in any letter case), and the colour is red, green or blue (in any
    letter case); the colour comes back as its blue-green-red triple. A
    number that does not convert ends the reading with that exception
    before any file is looked at, so not by the exit with status 2. *)
Theorem editor_cli_accepts
        (isfile : string -> bool) (py_int : string -> result Z)
        (a : EditorCli.args) (r : string * string * list Z * Z * Z) :
  (EditorCli.read_cli_parameters isfile py_int a = Parsed r
   <-> exists sz th rgb,
         py_int (EditorCli.size a) = Ok sz
         /\ py_int (EditorCli.thickness a) = Ok th
         /\ isfile (EditorCli.labelfile a) = true
         /\ isfile (EditorCli.videofile a) = true
         /\ PyStr.lower (snd (Py.splitext (EditorCli.labelfile a))) = ".h5"
         /\ (PyStr.lower (snd (Py.splitext (EditorCli.videofile a))) = ".avi"
             \/ PyStr.lower (snd (Py.splitext (EditorCli.videofile a))) = ".mp4")
         /\ ((PyStr.lower (EditorCli.color a) = "red" /\ rgb = [0; 0; 255])
             \/ (PyStr.lower (EditorCli.color a) = "green" /\ rgb = [0; 255; 0])
             \/ (PyStr.lower (EditorCli.color a) = "blue" /\ rgb = [255; 0; 0]))
         /\ r = (EditorCli.labelfile a, EditorCli.videofile a, rgb, sz, th))
  /\ (forall e, py_int (EditorCli.size a) = Raise e ->
                EditorCli.read_cli_parameters isfile py_int a = Uncaught e)
  /\ (forall sz e, py_int (EditorCli.size a) = Ok sz ->
                   py_int (EditorCli.thickness a) = Raise e ->
                   EditorCli.read_cli_parameters isfile py_int a = Uncaught e).
Proof.
  unfold EditorCli.read_cli_parameters.
  split; [|split; [intros e ->; reflexivity | intros sz e -> ->; reflexivity]].
  destruct (py_int (EditorCli.size a)) as [sz|e];
    [|split; [discriminate | intros (? & ? & ? & H & _); discriminate]].
  destruct (py_int (EditorCli.thickness a)) as [th|e];
    [|split; [discriminate | intros (? & ? & ? & _ & H & _); discriminate]].
  destruct (isfile (EditorCli.labelfile a)); simpl;
    [|split; [discriminate | intros (? & ? & ? & _ & _ & H & _); discriminate]].
  destruct (isfile (EditorCli.videofile a)); simpl;
    [|split; [discriminate | intros (? & ? & ? & _ & _ & _ & H & _); discriminate]].
  destruct (String.eqb_spec (PyStr.lower (snd (Py.splitext (EditorCli.labelfile a)))) ".h5")
    as [El|El]; simpl;
    [|split; [discriminate | intros (? & ? & ? & _ & _ & _ & _ & H & _); contradiction]].
  destruct (String.eqb_spec (PyStr.lower (snd (Py.splitext (EditorCli.videofile a)))) ".avi")
    as [Ea|Ea];
    [|destruct (String.eqb_spec (PyStr.lower (snd (Py.splitext (EditorCli.videofile a))))
                  ".mp4") as [Em|Em]]; simpl;
    try (split; [discriminate
                | intros (? & ? & ? & _ & _ & _ & _ & _ & [H|H] & _); contradiction]).
  all: destruct (String.eqb_spec (PyStr.lower (EditorCli.color a)) "red") as [Cr|Cr];
    [|destruct (String.eqb_spec (PyStr.lower (EditorCli.color a)) "green") as [Cg|Cg];
      [|destruct (String.eqb_spec (PyStr.lower (EditorCli.color a)) "blue") as [Cb|Cb]]].
  all: split;
    [ intros H; try discriminate H; injection H as <-;
      exists sz, th; eexists; repeat split; eauto
    | intros (sz' & th' & rgb & [= <-] & [= <-] & _ & _ & _ & _ & Hc & ->);
      destruct Hc as [[Hc ->]|[[Hc ->]|[Hc ->]]]; congruence ].
Qed.

(** X16. A label file the editor's command line accepts is accepted by
    the converter's command line too (on the same file system), which
    returns it unchanged. *)
Theorem editor_label_file_suits_converter
        (isfile : string -> bool) (py_int : string -> result Z)
        (a : EditorCli.args) (r : string * string * list Z * Z * Z) :
  EditorCli.read_cli_parameters isfile py_int a = Parsed r ->
  ConverterCli.read_cli_parameters isfile (EditorCli.labelfile a)
  = Parsed (EditorCli.labelfile a).
Proof.
  unfold EditorCli.read_cli_parameters, ConverterCli.read_cli_parameters.
  destruct (py_int (EditorCli.size a)); [|discriminate].
  destruct (py_int (EditorCli.thickness a)); [|discriminate].
  destruct (isfile (EditorCli.labelfile a)); [|discriminate]. simpl.
  destruct (isfile (EditorCli.videofile a)); [|discriminate]. simpl.
  destruct (String.eqb _ ".h5"); [|discriminate]. reflexivity.
Qed.

Lemma editor_label_file_suits_converter_witness :
  EditorCli.read_cli_parameters any_file int_of_defaults
    (EditorCli.namespace "/data/run1.H5" "/data/run1.Avi" (Some "Red") None None)
  = Parsed ("/data/run1.H5", "/data/run1.Avi", [0; 0; 255], 40, 2)
  /\ ConverterCli.read_cli_parameters any_file "/data/run1.H5" = Parsed "/data/run1.H5".
Proof.
  split; [vm_compute; reflexivity |].
  apply (editor_label_file_suits_converter any_file int_of_defaults
           (EditorCli.namespace "/data/run1.H5" "/data/run1.Avi" (Some "Red") None None)
           ("/data/run1.H5", "/data/run1.Avi", [0; 0; 255], 40, 2)).
  vm_compute. reflexivity.
Defined.

(** X19. The editor as a program: a command line that is accepted never
    ends with exit status 2, and if the session that follows holds no
    left-button press, no file is written, however the process ends. *)
Theorem editor_main_without_press
        (isfile : string -> bool) (py_int : string -> result Z)
        (read_hdf : string -> DataFrame.t) (frame_count_of : string -> Z)
        (a : EditorCli.args) (r : string * string * list Z * Z * Z)
        (inputs : list Editor.input) :
  EditorCli.read_cli_parameters isfile py_int a = Parsed r ->
  (forall ex ey, ~ In (Editor.Mouse Editor.EVENT_LBUTTONDOWN ex ey) inputs) ->
  match EditorCli.main isfile py_int read_hdf frame_count_of a inputs with
  | SysExit2 _ => False
  | Traceback _ => True
  | Returned o => Editor.files (Editor.state_of o) = []
  end.
Proof.
  intros Hr Hin. unfold EditorCli.main. rewrite Hr.
  destruct r as [[[[label_file video_file] rgb] sz] th].
  destruct (Editor.init label_file video_file (read_hdf label_file)
              (frame_count_of video_file)) as [s0|e] eqn:E; [|exact I].
  assert (H0 : Editor.mouse_pressed s0 = false /\ Editor.changes_made s0 = false).
  { revert E. unfold Editor.init. destruct (Editor.output_path _); [|discriminate].
    destruct (Py.first _); [|discriminate]. intros [= <-]. auto. }
  destruct H0 as [Hp Hc].
  pose proof (no_press_no_edit inputs s0 Hin Hp Hc) as Hclean.
  destruct (files_follow_edits_run _ inputs s0 (files_follow_edits_init _ _ _ _ _ E))
    as (_ & _ & Hn & _).
  specialize (Hn Hclean).
  destruct (Editor.run inputs s0) as [s1|s1|e s1]; simpl in *; auto.
Qed.

Lemma editor_main_without_press_witness :
  exists s,
    EditorCli.main any_file int_of_defaults (always_reads Sample.nose) (fun _ => 3)
      (EditorCli.namespace "/data/run1.h5" "/data/run1.mp4" None None None)
      [Editor.Key 46; Editor.FrameTrackbar 0; Editor.Key 27]
    = Returned (Editor.Exited s)
    /\ Editor.files s = [].
Proof.
  eexists. split; [vm_compute; reflexivity |].
  pose proof (editor_main_without_press any_file int_of_defaults
                (always_reads Sample.nose) (fun _ => 3)
                (EditorCli.namespace "/data/run1.h5" "/data/run1.mp4" None None None)
                ("/data/run1.h5", "/data/run1.mp4", [255; 0; 0], 40, 2)
                [Editor.Key 46; Editor.FrameTrackbar 0; Editor.Key 27]) as H.
  vm_compute in H. apply H; [reflexivity |].
  intros ex ey Hin. repeat (destruct Hin as [Hin|Hin]; [discriminate Hin |]). exact Hin.
Defined.

End CommandLines.

(** ** Loading a table, and the converter as a program *)

Section Loading.

Lemma split_go_nonempty (sep : list ascii) (s : list ascii) :
  forall skip piece, Py.split_go sep skip piece s <> [].
Proof.
  induction s as [|c s IH]; intros skip piece; simpl; [discriminate |].
  destruct skip; [|apply IH].
  destruct (Py.starts_with sep (c :: s)); [discriminate | apply IH].
Qed.

(** The path of the corrected table is defined for every input path. *)
Lemma output_path_total (label_file : string) :
  exists fixed, Editor.output_path label_file = Ok fixed.
Proof.
  unfold Editor.output_path, Py.rsplit, Py.split.
  match goal with
  | |- context [Py.split_go ?sep 0 [] ?l] =>
      pose proof (split_go_nonempty sep l 0%nat []) as Hne;
      destruct (Py.split_go sep 0 [] l) as [|piece pieces] using rev_ind;
      [contradiction |]
  end.
  rewrite map_app, rev_app_distr. simpl. eauto.
Qed.

(** X17. Loading fails only on a table without columns, with
    [IndexError], in the editor and in the converter alike; any other
    table loads in both, which then agree on the subject (that of the
    first column) and on the labels, and the editor starts idle: cursors
    at 0, button up, no edit recorded, nothing written. *)
Theorem loading_fails_only_on_empty_table
        (label_file video_file : string) (table : DataFrame.t) (video_frames : Z) :
  (table = [] ->
   Editor.init label_file video_file table video_frames = Raise IndexError
   /\ MatConverter.init label_file table = Raise IndexError)
  /\ (forall k0 col rest, table = (k0, col) :: rest ->
        exists s0 c,
          Editor.init label_file video_file table video_frames = Ok s0
          /\ MatConverter.init label_file table = Ok c
          /\ Editor.data_name s0 = fst (fst k0)
          /\ MatConverter.data_name c = fst (fst k0)
          /\ MatConverter.label_names c = Editor.label_names s0
          /\ (Editor.current_label s0, Editor.current_frame s0) = (0, 0)
          /\ Editor.mouse_pressed s0 = false
          /\ Editor.changes_made s0 = false
          /\ Editor.files s0 = []
          /\ Editor.label_data s0 = table).
Proof.
  unfold Editor.init, MatConverter.init.
  destruct (output_path_total label_file) as [fixed ->].
  split.
  - intros ->. split; reflexivity.
  - intros k0 col rest ->. simpl. eexists. eexists. repeat split.
Qed.

Lemma loading_fails_only_on_empty_table_witness :
  exists s0 c,
    Editor.init "/data/run1.h5" "/data/run1.avi" two_subjects 10 = Ok s0
    /\ MatConverter.init "/data/run1.h5" two_subjects = Ok c
    /\ Editor.data_name s0 = "mouse1"
    /\ MatConverter.label_names c = Editor.label_names s0.
Proof.
  destruct (proj2 (loading_fails_only_on_empty_table
                     "/data/run1.h5" "/data/run1.avi" two_subjects 10)
                  _ _ _ eq_refl)
    as (s0 & c & H1 & H2 & H3 & _ & H5 & _).
  exists s0, c. auto.
Defined.

Lemma export_with_missing_column_witness :
  exists c,
    MatConverter.init "/data/run1.h5" two_subjects = Ok c
    /\ MatConverter.label_names c = ["nose"; "tail"]
    /\ MatConverter.run c = (Raise KeyError, c).
Proof.
  eexists. split; [vm_compute; reflexivity |].
  split; [vm_compute; reflexivity |].
  match goal with
  | |- MatConverter.run ?c = _ =>
      refine (proj2 (export_with_missing_column
                       {| Editor.label_file := ""; Editor.video_file := "";
                          Editor.current_label := 0; Editor.current_frame := 0;
                          Editor.mx := 0; Editor.my := 0;
                          Editor.mouse_pressed := false; Editor.changes_made := false;
                          Editor.fixed_label_file := ""; Editor.label_data := [];
                          Editor.data_name := ""; Editor.label_names := [];
                          Editor.frame_count := 0; Editor.files := [] |}
                       c [] "tail") _ _)
  end.
  - vm_compute. right. left.
  - vm_compute. reflexivity.
Defined.

(** X18. The converter as a program. A path that is no file, or whose
    extension is not [.h5] in some letter case, ends it with exit status
    2 and the message of the failed check; a table without columns ends
    it with [IndexError]. Otherwise, when every label has its three
    columns under the first column's subject, it returns having written
    one file, the MAT file next to the input, in which every label maps
    to its three columns and nothing else is present. *)
Theorem converter_main_outcomes
        (isfile : string -> bool) (read_hdf : string -> DataFrame.t)
        (label_file : string) :
  (isfile label_file = false ->
   ConverterCli.main isfile read_hdf label_file
   = SysExit2 ("Label file does not exist: " ++ label_file)%string)
  /\ (isfile label_file = true ->
      PyStr.lower (snd (Py.splitext label_file)) <> ".h5" ->
      ConverterCli.main isfile read_hdf label_file
      = SysExit2 ("Label file is not *.H5: " ++ label_file)%string)
  /\ (isfile label_file = true ->
      PyStr.lower (snd (Py.splitext label_file)) = ".h5" ->
      (read_hdf label_file = [] ->
       ConverterCli.main isfile read_hdf label_file = Traceback IndexError)
      /\ (forall c,
            MatConverter.init label_file (read_hdf label_file) = Ok c ->
            (forall l, l ∈ MatConverter.label_names c ->
                       is_Some (column_entry (read_hdf label_file)
                                  (MatConverter.data_name c) l)) ->
            exists df_out,
              ConverterCli.main isfile read_hdf label_file
              = Returned (MatConverter.Build label_file (read_hdf label_file)
                            (MatConverter.data_name c) (MatConverter.label_names c)
                            [(mat_path label_file, MatFile df_out)])
              /\ forall l, df_out !! l
                           = if decide (l ∈ MatConverter.label_names c)
                             then column_entry (read_hdf label_file)
                                    (MatConverter.data_name c) l
                             else None)).
Proof.
  unfold ConverterCli.main, ConverterCli.read_cli_parameters.
  split; [|split].
  - intros ->. reflexivity.
  - intros -> Hext. simpl.
    destruct (String.eqb_spec (PyStr.lower (snd (Py.splitext label_file))) ".h5");
      [contradiction | reflexivity].
  - intros -> Hext. simpl. rewrite Hext. simpl. split.
    + intros ->. reflexivity.
    + intros c Hc Hcols. rewrite Hc.
      assert (Hfields : MatConverter.label_file c = label_file
                        /\ MatConverter.label_data c = read_hdf label_file
                        /\ MatConverter.files c = []).
      { revert Hc. unfold MatConverter.init. destruct (Py.first _); [|discriminate].
        intros [= <-]. auto. }
      destruct Hfields as (Hf & Hd & Hw).
      destruct (mat_entries_lookup (read_hdf label_file) (MatConverter.data_name c)
                  (MatConverter.label_names c) ∅ Hcols) as [df_out [Hm Hl]].
      exists df_out. split.
      * unfold MatConverter.run, MatConverter.save_matlab_file.
        rewrite <- mat_entries_agree, Hd, Hm, Hf, Hw. reflexivity.
      * intros l. rewrite Hl. destruct (decide (l ∈ MatConverter.label_names c));
          [reflexivity | apply lookup_empty].
Qed.

Lemma converter_main_outcomes_witness :
  exists df_out,
    ConverterCli.main any_file (always_reads Sample.nose) "/data/run1.H5"
    = Returned (MatConverter.Build "/data/run1.H5" Sample.nose "dlc" ["nose"]
                  [("/data/run1.mat", MatFile df_out)])
    /\ df_out !! "tail" = None.
Proof.
  destruct (proj2 (proj2 (converter_main_outcomes any_file (always_reads Sample.nose)
                            "/data/run1.H5")) eq_refl eq_refl) as [_ H].
  destruct (H (MatConverter.Build "/data/run1.H5" Sample.nose "dlc" ["nose"] []))
    as (df_out & Hmain & Hl).
  - vm_compute. reflexivity.
  - intros l Hin. apply list_elem_of_singleton in Hin. subst l. vm_compute. eauto.
  - exists df_out. split; [exact Hmain |].
    rewrite Hl. rewrite decide_False; [reflexivity |].
    intros Hin. apply list_elem_of_singleton in Hin. discriminate.
Defined.

End Loading.
